(** * SpaceX launch dashboard: the callbacks of [spacex_dash_app.py]

    A shallow embedding of the dashboard's module-level code (dataset
    loader, layout) and of its two reactive callbacks, [get_pie_chart] and
    [get_scatter_chart], together with the fragment of pandas and of
    plotly express they call.

    Python objects that the program aliases ([filtered_df = spacex_df])
    or updates in place ([status_counts.columns = ...]) live in an object
    store addressed by location; the program runs in a state monad over
    that store whose results are either a value or a raised exception.

    Conventions of the model:
    - a number is held by its exact value, a rational: 1 and 1.0 are
      one value, as they are for [==], for the keys of a dict and for
      [unique()].  Of IEEE floats only NaN is modelled besides, not the
      infinities.  Python's [bool] is not represented: pandas does not
      look a column of booleans up like a column of integers
      ([Series.map] finds neither of the keys 1 and 0 for it), and no
      table or input of the model stands for one;
    - numbers compare by their exact values.  numpy compares an integer
      column with a float bound after casting the integers to float64,
      which is exact for the integers within [±2^53] ([exact_number]);
      the statements that place payloads inside or outside an interval
      are made for tables and bounds in that range;
    - the site selector hands the callbacks a string, as its option
      values are strings;
    - a chart description keeps the arrays plotly express copies out of
      the frame; what is drawn from them ([px.slices], [px.points]) is
      defined next to it. *)

From Stdlib Require Import ZArith QArith Qcanon Lia.
From stdpp Require Import base option list strings pretty.

Open Scope string_scope.
Open Scope list_scope.

(** ** Python values *)

(** What a cell of a frame or an element of a JSON payload can hold:
    [None], a number, NaN or a string.  [Num q] is the Python [int] or
    finite [float] of value [q]; the two are equal, hash alike and pass
    [isinstance(_, (int, float))] alike.  [NaN] is the float
    not-a-number (pandas' missing value).  There is no constructor for
    [True] and [False]. *)
Inductive scalar :=
| PNone
| Num (q : Qc)
| NaN
| Str (s : string).

(** Values received from the browser: JSON scalars and JSON arrays. *)
#[warnings="-register-all"]
Inductive pyval :=
| Atom (a : scalar)
| PyList (l : list pyval).

Inductive exn :=
| NameError (name : string)
| KeyError (key : string)
| TypeError
| ValueError
| FileNotFoundError.

Inductive result (A : Type) :=
| Ok (a : A)
| Raise (e : exn).
Arguments Ok {A} a.
Arguments Raise {A} e.

#[global] Instance scalar_eq_dec : EqDecision scalar.
Proof. solve_decision. Defined.

(** Integer literals as numbers, and the order on numbers. *)
Definition qz (z : Z) : Qc := Q2Qc (inject_Z z).

Definition qc_leb (x y : Qc) : bool := Qle_bool x y.

(** [isinstance(v, (int, float))] *)
Definition isinstance_number (v : pyval) : bool :=
  match v with
  | Atom (Num _) | Atom NaN => true
  | _ => false
  end.

(** [a == b] on scalars: structural, except that NaN equals nothing. *)
Definition py_eq (a b : scalar) : bool :=
  match a, b with
  | NaN, _ | _, NaN => false
  | _, _ => bool_decide (a = b)
  end.

(** [a >= b] and [a <= b] between a cell [a] of a column and a scalar
    [b], as pandas evaluates [column >= b] cell by cell.  Against a
    missing [b] (NaN, None) pandas answers False for every cell without
    looking at it; a missing cell compares False; two numbers and two
    strings are ordered; a string against a number raises. *)
Definition py_ge (a b : scalar) : result bool :=
  match a, b with
  | _, NaN | _, PNone => Ok false
  | NaN, _ | PNone, _ => Ok false
  | Num x, Num y => Ok (qc_leb y x)
  | Str x, Str y => Ok (String.leb y x)
  | Num _, Str _ | Str _, Num _ => Raise TypeError
  end.

Definition py_le (a b : scalar) : result bool :=
  match a, b with
  | _, NaN | _, PNone => Ok false
  | NaN, _ | PNone, _ => Ok false
  | Num x, Num y => Ok (qc_leb x y)
  | Str x, Str y => Ok (String.leb x y)
  | Num _, Str _ | Str _, Num _ => Raise TypeError
  end.

(** [pd.notna(v)] on a scalar *)
Definition notna (v : scalar) : bool :=
  match v with
  | NaN | PNone => false
  | _ => true
  end.

(** [low, high = v]: unpacking an iterable of exactly two items. *)
Definition unpack2 (v : pyval) : result (pyval * pyval) :=
  match v with
  | PyList [a; b] => Ok (a, b)
  | PyList _ => Raise ValueError
  | Atom (Str (String a (String b EmptyString))) =>
      Ok (Atom (Str (String a EmptyString)), Atom (Str (String b EmptyString)))
  | Atom (Str _) => Raise ValueError
  | Atom _ => Raise TypeError
  end.

(** Exceptions propagate through [result]. *)
#[global] Instance result_ret : MRet result := λ A a, Ok a.

#[global] Instance result_bind : MBind result := λ A B k r,
  match r with
  | Ok a => k a
  | Raise e => Raise e
  end.

#[global] Instance result_fmap : FMap result := λ A B f r,
  match r with
  | Ok a => Ok (f a)
  | Raise e => Raise e
  end.

Fixpoint rmap {A B} (f : A → result B) (l : list A) : result (list B) :=
  match l with
  | [] => Ok []
  | x :: l' => y ← f x; ys ← rmap f l'; Ok (y :: ys)
  end.

(** Both pandas' [value_counts] and the renderer's pie slices go
    through the items once, keeping a table keyed by the value seen:
    a new key is appended, a known key has its entry combined with the
    new weight. *)
Section accumulate.
Context {W : Type} (op : W → W → W).

Fixpoint accumulate (k : scalar) (w : W) (acc : list (scalar * W)) : list (scalar * W) :=
  match acc with
  | [] => [(k, w)]
  | (k', w') :: acc' =>
      if bool_decide (k' = k) then (k', op w' w) :: acc'
      else (k', w') :: accumulate k w acc'
  end.

Definition group_from (acc es : list (scalar * W)) : list (scalar * W) :=
  fold_left (λ acc e, accumulate (fst e) (snd e) acc) es acc.
End accumulate.

(** ** The fragment of pandas used by the program *)

Module pd.

(** A column taken out of a frame: its name and its values, top to
    bottom.  Row labels (the index) play no part in the program and are
    left out. *)
Record Series := { name : string; values : list scalar }.

(** A frame: the column names, and the rows, each holding one cell per
    column. *)
Record DataFrame := { columns : list string; rows : list (list scalar) }.

(** The result of [value_counts]: a Series of counts indexed by the
    values counted. *)
Record Counts := { index_name : string; items : list (scalar * nat) }.

Fixpoint index_of (c : string) (cs : list string) : option nat :=
  match cs with
  | [] => None
  | c' :: cs' => if String.eqb c' c then Some 0 else S <$> index_of c cs'
  end.

(** [c in df.columns] *)
Definition has_column (df : DataFrame) (c : string) : bool :=
  bool_decide (is_Some (index_of c (columns df))).

(** The cell of row [r] under column [c]. *)
Definition cell (df : DataFrame) (c : string) (r : list scalar) : scalar :=
  match index_of c (columns df) with
  | Some i => nth i r NaN
  | None => NaN
  end.

(** [df[c]] *)
Definition getitem (df : DataFrame) (c : string) : result Series :=
  if has_column df c
  then Ok {| name := c; values := cell df c <$> rows df |}
  else Raise (KeyError c).

(** [s == v], [s >= v], [s <= v]: elementwise, giving a boolean mask. *)
Definition eq (s : Series) (v : scalar) : list bool :=
  (λ x, py_eq x v) <$> values s.

Definition ge (s : Series) (v : scalar) : result (list bool) :=
  rmap (λ x, py_ge x v) (values s).

Definition le (s : Series) (v : scalar) : result (list bool) :=
  rmap (λ x, py_le x v) (values s).

(** [m1 & m2] *)
Definition and (m1 m2 : list bool) : list bool := zip_with andb m1 m2.

Fixpoint compress {A} (mask : list bool) (l : list A) : list A :=
  match mask, l with
  | b :: mask', x :: l' => if b then x :: compress mask' l' else compress mask' l'
  | _, _ => []
  end.

(** [df[mask]]: the rows whose mask entry is true, in a new frame. *)
Definition getitem_mask (df : DataFrame) (mask : list bool) : result DataFrame :=
  if Nat.eqb (length mask) (length (rows df))
  then Ok {| columns := columns df; rows := compress mask (rows df) |}
  else Raise ValueError.

(** [s.map(d)] for a dict [d]: a cell equal to a key takes the value
    filed under it (the number 1 finds the key 1 whether the column
    holds integers or floats), a cell without a key becomes NaN. *)
Definition dict_get (d : list (scalar * scalar)) (x : scalar) : scalar :=
  match find (λ kv, py_eq (fst kv) x) d with
  | Some kv => snd kv
  | None => NaN
  end.

Definition map (s : Series) (d : list (scalar * scalar)) : Series :=
  {| name := name s; values := dict_get d <$> values s |}.

(** [s.unique()]: the distinct values in order of first appearance. *)
Fixpoint unique_from (seen l : list scalar) : list scalar :=
  match l with
  | [] => []
  | x :: l' =>
      if bool_decide (x ∈ seen) then unique_from seen l'
      else x :: unique_from (x :: seen) l'
  end.

Definition unique (s : Series) : list scalar := unique_from [] (values s).

(** [s.value_counts()]: missing values are dropped, every distinct value
    is counted, and the counts are listed from the largest down, values
    with equal counts keeping their order of first appearance. *)
Fixpoint insert_desc (e : scalar * nat) (l : list (scalar * nat)) : list (scalar * nat) :=
  match l with
  | [] => [e]
  | e' :: l' =>
      if Nat.leb (snd e') (snd e) then e :: e' :: l' else e' :: insert_desc e l'
  end.

Definition sort_desc (l : list (scalar * nat)) : list (scalar * nat) :=
  foldr insert_desc [] l.

Definition value_counts (s : Series) : Counts :=
  {| index_name := name s;
     items := sort_desc (group_from Nat.add []
                ((λ x, (x, 1)) <$> filter (λ x, notna x = true) (values s))) |}.

(** [c.reset_index()]: the index becomes a column, named after the
    Series counted, next to the column of counts, named "count" (the
    names pandas 2 gives; the program renames both columns at once). *)
Definition reset_index (c : Counts) : DataFrame :=
  {| columns := [index_name c; "count"];
     rows := (λ e, [fst e; Num (qz (Z.of_nat (snd e)))]) <$> items c |}.

(** [df.columns = names]: as many names as there are columns. *)
Definition set_columns (df : DataFrame) (names : list string) : result DataFrame :=
  if Nat.eqb (length names) (length (columns df))
  then Ok {| columns := names; rows := rows df |}
  else Raise ValueError.

(** [df.copy()] *)
Definition copy (df : DataFrame) : DataFrame :=
  {| columns := columns df; rows := rows df |}.

(** [pd.DataFrame(d)] for a dict [d] of columns of one length. *)
Definition from_dict (d : list (string * list scalar)) : result DataFrame :=
  match d with
  | [] => Ok {| columns := []; rows := [] |}
  | (_, c0) :: _ =>
      if forallb (λ c, Nat.eqb (length (snd c)) (length c0)) d
      then Ok {| columns := fst <$> d;
                 rows := (λ i, (λ c, nth i (snd c) NaN) <$> d) <$> seq 0 (length c0) |}
      else Raise ValueError
  end.

(** [s.max()] and [s.min()] skip missing values and give NaN when
    nothing is left.  Only columns of numbers are modelled: on a string
    cell the model raises, as pandas does for a column that mixes
    strings and numbers (of a column holding strings only pandas
    returns the largest or smallest string, which is not modelled). *)
Definition extremum (pick : Qc → Qc → Qc) (s : Series) : result scalar :=
  fold_left (λ acc x,
    a ← acc;
    match x, a with
    | Num q, Num m => Ok (Num (pick m q))
    | Num q, _ => Ok (Num q)
    | NaN, _ | PNone, _ => Ok a
    | Str _, _ => Raise TypeError
    end) (values s) (Ok NaN).

Definition max (s : Series) : result scalar :=
  extremum (λ m q, if qc_leb m q then q else m) s.

Definition min (s : Series) : result scalar :=
  extremum (λ m q, if qc_leb q m then q else m) s.

End pd.

(** ** The fragment of plotly express used by the program *)

Module px.

(** One marker of a scatter chart. *)
Record point := { x : scalar; y : scalar; color : scalar }.

(** A chart description: the data arrays handed to the renderer and the
    title.  A pie holds one label per row of the frame it was built
    from, and one value per row when a values column was named; a
    scatter chart holds one marker per row that has a colour category,
    kept here in row order with that category (plotly groups the
    markers of one category into one trace). *)
Inductive Figure :=
| Pie (labels : list scalar) (values : option (list scalar)) (title : string)
| Scatter (points : list point) (title : string).

Definition title (fig : Figure) : string :=
  match fig with
  | Pie _ _ t => t
  | Scatter _ t => t
  end.

(** A column named in a px call must exist in the frame. *)
Definition column_arg (df : pd.DataFrame) (c : string) : result (list scalar) :=
  if pd.has_column df c then Ok (pd.cell df c <$> pd.rows df)
  else Raise ValueError.

(** [px.pie(df, values=.., names=.., title=..)], [values] optional *)
Definition pie (df : pd.DataFrame) (values : option string) (names title : string)
  : result Figure :=
  vs ← match values with
       | Some v => vs ← column_arg df v; Ok (Some vs)
       | None => Ok None
       end;
  ls ← column_arg df names;
  Ok (Pie ls vs title).

(** [px.scatter(df, x=.., y=.., color=.., title=..)] for a colour
    column of categories, as the booster category is: the rows are
    grouped by category, one trace per category; a row whose category
    is missing (NaN, None) belongs to no group and gets no marker.
    (A colour column of numbers is drawn on a continuous scale instead;
    that mode is not modelled.) *)
Definition scatter (df : pd.DataFrame) (x y color title : string) : result Figure :=
  column_arg df x;;
  column_arg df y;;
  column_arg df color;;
  Ok (Scatter
        ((λ r, {| px.x := pd.cell df x r; px.y := pd.cell df y r;
                  px.color := pd.cell df color r |})
           <$> filter (λ r, notna (pd.cell df color r) = true) (pd.rows df))
        title).

(** [px.scatter(title=..)]: no data at all *)
Definition scatter_empty (title : string) : Figure := Scatter [] title.

(** *** What the renderer draws

    The markers of a scatter chart are its points.  The slices of a pie
    are obtained from its arrays as plotly does: entries are read in
    order, an entry weighs its value, or 1 when no values were given;
    entries whose value is not a number or is negative are skipped; the
    entries of one label are added up into one slice. *)
Definition points (fig : Figure) : list point :=
  match fig with
  | Scatter ps _ => ps
  | Pie _ _ _ => []
  end.

Definition entries (fig : Figure) : list (scalar * Qc) :=
  match fig with
  | Pie ls None _ => (λ l, (l, qz 1)) <$> ls
  | Pie ls (Some vs) _ =>
      omap (λ e, match snd e with
                 | Num v => if qc_leb (qz 0) v then Some (fst e, v) else None
                 | _ => None
                 end) (zip ls vs)
  | Scatter _ _ => []
  end.

Definition slices (fig : Figure) : list (scalar * Qc) :=
  group_from Qcplus [] (entries fig).

Definition total (sl : list (scalar * Qc)) : Qc :=
  foldr (λ e acc, (snd e + acc)%Qc) (qz 0) sl.

End px.

(** ** The fragment of dash used by the layout *)

Module dcc.

Record Dropdown := {
  dd_id : string;
  options : list (scalar * scalar);   (* label, value *)
  dd_value : scalar;
  placeholder : string;
  searchable : bool }.

Record RangeSlider := {
  rs_id : string;
  min : Z;
  max : Z;
  step : Z;
  marks : list (Z * string);
  rs_value : list scalar }.

Record Graph := { g_id : string }.

End dcc.

(** [range(start, stop, step)] for a positive step *)
Definition py_range (start stop step : Z) : list Z :=
  (λ k, (start + Z.of_nat k * step)%Z) <$> seq 0 (Z.to_nat ((stop - start + step - 1) / step)).

(** [str(i)] for an integer *)
Definition py_str (i : Z) : string := pretty i.

(** ** Program state *)

Definition loc := nat.

(** The objects allocated so far, the text printed so far, and the
    module-level variable [spacex_df], unbound until the loader has run. *)
Record state := {
  objs : list pd.DataFrame;
  stdout : list string;
  spacex_df : option loc }.

Definition M (A : Type) : Type := state → result A * state.

#[global] Instance M_ret : MRet M := λ A a st, (Ok a, st).

#[global] Instance M_bind : MBind M := λ A B k m st,
  match m st with
  | (Ok a, st') => k a st'
  | (Raise e, st') => (Raise e, st')
  end.

(** A pure computation that may raise. *)
Definition lift {A} (r : result A) : M A := λ st, (r, st).

(** [try: m except FileNotFoundError: h] *)
Definition try_except_FileNotFoundError {A} (m h : M A) : M A :=
  λ st, match m st with
        | (Raise FileNotFoundError, st') => h st'
        | r => r
        end.

(** A fresh object. *)
Definition alloc (df : pd.DataFrame) : M loc :=
  λ st, (Ok (length (objs st)),
         {| objs := objs st ++ [df]; stdout := stdout st; spacex_df := spacex_df st |}).

(** The object a reference points to. *)
Definition deref (l : loc) : M pd.DataFrame :=
  λ st, match objs st !! l with
        | Some df => (Ok df, st)
        | None => (Raise (NameError "dangling reference"), st)
        end.

(** In-place update of an object. *)
Definition store (l : loc) (df : pd.DataFrame) : M unit :=
  λ st, (Ok tt, {| objs := <[l := df]> (objs st); stdout := stdout st;
                   spacex_df := spacex_df st |}).

(** Reading and binding the global name [spacex_df]. *)
Definition global_spacex_df : M loc :=
  λ st, match spacex_df st with
        | Some l => (Ok l, st)
        | None => (Raise (NameError "spacex_df"), st)
        end.

Definition set_global_spacex_df (l : loc) : M unit :=
  λ st, (Ok tt, {| objs := objs st; stdout := stdout st; spacex_df := Some l |}).

Definition print (s : string) : M unit :=
  λ st, (Ok tt, {| objs := objs st; stdout := stdout st ++ [s]; spacex_df := spacex_df st |}).

(** Frame operations through references. *)
Definition getitem (l : loc) (c : string) : M pd.Series :=
  df ← deref l; lift (pd.getitem df c).

Definition getitem_mask (l : loc) (mask : list bool) : M loc :=
  df ← deref l; df' ← lift (pd.getitem_mask df mask); alloc df'.

Definition copy (l : loc) : M loc :=
  df ← deref l; alloc (pd.copy df).

Definition columns (l : loc) : M (list string) :=
  df ← deref l; mret (pd.columns df).

Definition set_columns (l : loc) (names : list string) : M unit :=
  df ← deref l; df' ← lift (pd.set_columns df names); store l df'.

Definition px_pie (l : loc) (values : option string) (names title : string) : M px.Figure :=
  df ← deref l; lift (px.pie df values names title).

Definition px_scatter (l : loc) (x y color title : string) : M px.Figure :=
  df ← deref l; lift (px.scatter df x y color title).

(** Comparing a column with a value received from the browser.  Only
    scalar operands are modelled; the callers' guard lets no other
    through. *)
Definition series_ge (s : pd.Series) (v : pyval) : M (list bool) :=
  match v with
  | Atom a => lift (pd.ge s a)
  | PyList _ => lift (Raise ValueError)
  end.

Definition series_le (s : pd.Series) (v : pyval) : M (list bool) :=
  match v with
  | Atom a => lift (pd.le s a)
  | PyList _ => lift (Raise ValueError)
  end.

(** ** The program *)

(** The file system as seen by [pd.read_csv]: the table parsed from a
    path, if the file exists. *)
Definition filesystem := string → option pd.DataFrame.

Definition read_csv (fs : filesystem) (path : string) : M loc :=
  match fs path with
  | Some df => alloc df
  | None => lift (Raise FileNotFoundError)
  end.

Record Layout := {
  heading : string;
  site_dropdown : dcc.Dropdown;
  success_pie_chart : dcc.Graph;
  slider_caption : string;
  payload_slider : dcc.RangeSlider;
  success_payload_scatter_chart : dcc.Graph }.

(** Lines 12-22: the dataset loader. *)
Definition load_dataset (fs : filesystem) : M unit :=
  try_except_FileNotFoundError
    (l ← read_csv fs "spacex_launch_dash.csv";
     set_global_spacex_df l)
    (print "Error: 'spacex_launch_dash.csv' not found. Please ensure the file is in the correct directory.";;
     df ← lift (pd.from_dict [("Payload Mass (kg)", [Num (qz 0)]);
                              ("Launch Site", [Str "Default"]);
                              ("class", [Num (qz 0)]);
                              ("Booster Version Category", [Str "Default"])]);
     l ← alloc df;
     set_global_spacex_df l).

(** Lines 24-74: the payload bounds and the layout. *)
Definition build_layout : M Layout :=
  df ← global_spacex_df;
  s ← getitem df "Payload Mass (kg)";
  max_payload ← lift (pd.max s);
  df ← global_spacex_df;
  s ← getitem df "Payload Mass (kg)";
  min_payload ← lift (pd.min s);
  df ← global_spacex_df;
  sites ← getitem df "Launch Site";
  mret {|
    heading := "SpaceX Launch Records Dashboard";
    site_dropdown := {|
      dcc.dd_id := "site-dropdown";
      dcc.options := (Str "All Sites", Str "ALL")
                     :: ((λ site, (site, site)) <$> pd.unique sites);
      dcc.dd_value := Str "ALL";
      dcc.placeholder := "Select a Launch Site";
      dcc.searchable := true |};
    success_pie_chart := {| dcc.g_id := "success-pie-chart" |};
    slider_caption := "Payload range (Kg):";
    payload_slider := {|
      dcc.rs_id := "payload-slider";
      dcc.min := 0;
      dcc.max := 10000;
      dcc.step := 1000;
      dcc.marks := (λ i, (i, py_str i)) <$> py_range 0 10001 1000;
      dcc.rs_value := [if notna min_payload then min_payload else Num (qz 0);
                       if notna max_payload then max_payload else Num (qz 10000)] |};
    success_payload_scatter_chart := {| dcc.g_id := "success-payload-scatter-chart" |} |}.

(** The module body, run once at startup. *)
Definition startup (fs : filesystem) : M Layout :=
  load_dataset fs;; build_layout.

(** Lines 81-103. *)
Definition get_pie_chart (entered_site : string) : M px.Figure :=
  filtered_df ← global_spacex_df;
  if String.eqb entered_site "ALL" then
    cls ← getitem filtered_df "class";
    successful_launches_df ← getitem_mask filtered_df (pd.eq cls (Num (qz 1)));
    px_pie successful_launches_df None "Launch Site" "Total Successful Launches by Site"
  else
    sites ← getitem filtered_df "Launch Site";
    site_filtered_df ← getitem_mask filtered_df (pd.eq sites (Str entered_site));
    cls ← getitem site_filtered_df "class";
    status_counts ← alloc (pd.reset_index (pd.value_counts
                      (pd.map cls [(Num (qz 1), Str "Success"); (Num (qz 0), Str "Failure")])));
    set_columns status_counts ["status"; "count"];;
    px_pie status_counts (Some "count") "status"
           ("Successful vs. Failed Launches for site " +:+ entered_site).

(** Lines 111-143. *)
Definition get_scatter_chart (entered_site : string) (payload_range : pyval) : M px.Figure :=
  '(low, high) ← lift (unpack2 payload_range);
  df ← global_spacex_df;
  cols ← columns df;
  if negb (bool_decide ("Payload Mass (kg)" ∈ cols)) then
    mret (px.scatter_empty "Payload Mass (kg) column missing")
  else
    current_filtered_df ←
      (if negb (isinstance_number low && isinstance_number high) then
         df ← global_spacex_df; copy df
       else
         df ← global_spacex_df;
         df1 ← global_spacex_df;
         p1 ← getitem df1 "Payload Mass (kg)";
         m1 ← series_ge p1 low;
         df2 ← global_spacex_df;
         p2 ← getitem df2 "Payload Mass (kg)";
         m2 ← series_le p2 high;
         getitem_mask df (pd.and m1 m2));
    if String.eqb entered_site "ALL" then
      px_scatter current_filtered_df "Payload Mass (kg)" "class" "Booster Version Category"
                 "Payload vs. Launch Outcome for All Sites"
    else
      sites ← getitem current_filtered_df "Launch Site";
      site_filtered_df ← getitem_mask current_filtered_df (pd.eq sites (Str entered_site));
      px_scatter site_filtered_df "Payload Mass (kg)" "class" "Booster Version Category"
                 ("Payload vs. Launch Outcome for site " +:+ entered_site).

(** ** Vocabulary of the specification *)

Definition site_of (ds : pd.DataFrame) (r : list scalar) : scalar := pd.cell ds "Launch Site" r.
Definition class_of (ds : pd.DataFrame) (r : list scalar) : scalar := pd.cell ds "class" r.
Definition payload_of (ds : pd.DataFrame) (r : list scalar) : scalar := pd.cell ds "Payload Mass (kg)" r.
Definition booster_of (ds : pd.DataFrame) (r : list scalar) : scalar :=
  pd.cell ds "Booster Version Category" r.

(** Outcome class 1 is a success, 0 a failure. *)
Definition is_success (ds : pd.DataFrame) (r : list scalar) : bool := py_eq (class_of ds r) (Num (qz 1)).
Definition is_failure (ds : pd.DataFrame) (r : list scalar) : bool := py_eq (class_of ds r) (Num (qz 0)).

Definition at_site (ds : pd.DataFrame) (S : string) (r : list scalar) : bool :=
  py_eq (site_of ds r) (Str S).

(** The number of rows of [ds] satisfying [f]. *)
Definition count_rows (f : list scalar → bool) (ds : pd.DataFrame) : nat :=
  length (filter (λ r, f r = true) (pd.rows ds)).

(** A count as a chart value. *)
Definition qn (n : nat) : Qc := qz (Z.of_nat n).

(** The module-level name [spacex_df] is bound to the dataset [ds]. *)
Definition loaded (st : state) (ds : pd.DataFrame) : Prop :=
  ∃ l, spacex_df st = Some l ∧ objs st !! l = Some ds.

(** The shape of a Dataset: the four columns are there, and payload
    masses are numbers or missing. *)
Definition is_numeric (v : scalar) : bool :=
  match v with
  | Num _ | NaN => true
  | _ => false
  end.

Definition well_formed (ds : pd.DataFrame) : bool :=
  forallb (pd.has_column ds)
          ["Payload Mass (kg)"; "Launch Site"; "class"; "Booster Version Category"]
  && forallb (λ r, is_numeric (payload_of ds r)) (pd.rows ds).

(** Every outcome class is 0 or 1. *)
Definition binary_class (ds : pd.DataFrame) : bool :=
  forallb (λ r, is_success ds r || is_failure ds r) (pd.rows ds).

(** The marker drawn for a row. *)
Definition point_of (ds : pd.DataFrame) (r : list scalar) : px.point :=
  {| px.x := payload_of ds r; px.y := class_of ds r; px.color := booster_of ds r |}.

(** The row has a booster category, which is what gets it a marker in
    the scatter chart; [charted] keeps the rows of a selection that get
    one.  In a Dataset every launch has a booster category. *)
Definition has_booster (ds : pd.DataFrame) (r : list scalar) : bool :=
  notna (booster_of ds r).


Definition charted (ds : pd.DataFrame) (rs : list (list scalar)) : list (list scalar) :=
  filter (λ r, has_booster ds r = true) rs.

(** The numbers within [±2^53].  In that range every integer is a
    float64 as well, so that numpy's comparison of a column with a
    bound gives the comparison of their values whether the column and
    the bound are integers or floats. *)
Definition exact_number (v : scalar) : bool :=
  match v with
  | Num q => qc_leb (qz (- 2 ^ 53)) q && qc_leb q (qz (2 ^ 53))
  | _ => true
  end.


Definition exact_payloads (ds : pd.DataFrame) : bool :=
  forallb (λ r, exact_number (payload_of ds r)) (pd.rows ds).

(** The dataset of the specification's worked example, a state holding
    it, and the state before startup. *)
Definition ex_ds : pd.DataFrame :=
  {| pd.columns := ["Payload Mass (kg)"; "Launch Site"; "class"; "Booster Version Category"];
     pd.rows := [[Num (qz 500); Str "A"; Num (qz 1); Str "B1"];
                 [Num (qz 500); Str "A"; Num (qz 0); Str "B2"];
                 [Num (qz 9000); Str "B"; Num (qz 1); Str "B1"]] |}.

Definition ex_st : state := {| objs := [ex_ds]; stdout := []; spacex_df := Some 0 |}.

Definition init_state : state := {| objs := []; stdout := []; spacex_df := None |}.

(** The dict [{1: 'Success', 0: 'Failure'}]. *)
Definition outcome_labels : list (scalar * scalar) :=
  [(Num (qz 1), Str "Success"); (Num (qz 0), Str "Failure")].

(** The outcome labels of the rows of [ds] at site [S], as counted by
    [value_counts]. *)
Definition site_outcomes (ds : pd.DataFrame) (S : string) : list (scalar * nat) :=
  pd.items (pd.value_counts (pd.map
    {| pd.name := "class";
       pd.values := class_of ds <$> filter (λ r, at_site ds S r = true) (pd.rows ds) |}
    outcome_labels)).

(** Ordering of numbers as the interval filter sees it: false as soon
    as a side is missing. *)
Definition num_le (a b : scalar) : bool :=
  match a, b with
  | Num x, Num y => qc_leb x y
  | _, _ => false
  end.

(** The payload of row [r] lies between [lo] and [hi], bounds included. *)
Definition within (ds : pd.DataFrame) (lo hi : scalar) (r : list scalar) : bool :=
  num_le lo (payload_of ds r) && num_le (payload_of ds r) hi.

(** The rows left by the interval step of the scatter callback, and by
    its site step. *)
Definition interval_rows (ds : pd.DataFrame) (low high : pyval) : list (list scalar) :=
  match low, high with
  | Atom lo, Atom hi =>
      if is_numeric lo && is_numeric hi
      then filter (λ r, within ds lo hi r = true) (pd.rows ds)
      else pd.rows ds
  | _, _ => pd.rows ds
  end.

Definition site_rows (ds : pd.DataFrame) (site : string) (rs : list (list scalar))
  : list (list scalar) :=
  if String.eqb site "ALL" then rs else filter (λ r, at_site ds site r = true) rs.

Definition scatter_title (site : string) : string :=
  if String.eqb site "ALL" then "Payload vs. Launch Outcome for All Sites"
  else "Payload vs. Launch Outcome for site " +:+ site.

(** The table the loader falls back on. *)
Definition placeholder : pd.DataFrame :=
  {| pd.columns := ["Payload Mass (kg)"; "Launch Site"; "class"; "Booster Version Category"];
     pd.rows := [[Num (qz 0); Str "Default"; Num (qz 0); Str "Default"]] |}.

(** The dataset the program works on, given the file system. *)
Definition dataset_of (fs : filesystem) : pd.DataFrame :=
  default placeholder (fs "spacex_launch_dash.csv").

(** The distinct values of a column in first-seen order: going down the
    column, a value is appended when it has not been met yet. *)
Definition first_seen (xs : list scalar) : list scalar :=
  fold_left (λ acc x, if bool_decide (x ∈ acc) then acc else acc ++ [x]) xs [].

(** A run from [st] to [st'] only allocates: [spacex_df] is bound as
    before and every object of [st] is found in [st'] at its address with
    its contents; [st'] may hold more objects. *)
Definition only_allocates (st st' : state) : Prop :=
  spacex_df st' = spacex_df st ∧ ∃ new, objs st' = objs st ++ new.

(** [m] only allocates relative to [st0], touching no object of [st0]
    even when it raises, and its result satisfies [Q]. *)
Definition preserves {A} (st0 : state) (Q : A → Prop) (m : M A) : Prop :=
  ∀ st, only_allocates st0 st →
        only_allocates st0 (m st).2 ∧ ∀ a, (m st).1 = Ok a → Q a.

(** A reference to an object allocated after [st0]. *)
Definition fresh (st0 : state) (l : loc) : Prop := (length (objs st0) <= l)%nat.

(** The number of occurrences of [k] in [xs]. *)
Definition occurrences (k : scalar) (xs : list scalar) : nat :=
  length (filter (λ x, x = k) xs).

(** The table [value_counts] builds before sorting. *)
Definition tallies (xs : list scalar) : list (scalar * nat) :=
  group_from Nat.add [] ((λ x, (x, 1)) <$> xs).

(** The total weight recorded for key [k] in a table. *)
Definition weight (k : scalar) (acc : list (scalar * nat)) : nat :=
  sum_list (filter (λ e, e.1 = k) acc).*2.

(** The labels counted for site [S]: one per row at [S] whose class is
    0 or 1. *)
Definition site_labels (ds : pd.DataFrame) (S : string) : list scalar :=
  filter (λ x, notna x = true)
         (pd.dict_get outcome_labels <$>
            (class_of ds <$> filter (λ r, at_site ds S r = true) (pd.rows ds))).

(** A table without the payload-mass column. *)
Definition no_payload_ds : pd.DataFrame :=
  {| pd.columns := ["Launch Site"; "class"];
     pd.rows := [[Str "A"; Num (qz 1)]] |}.

(** [b] is the extreme of the numbers among [a] and [vs] for the order
    [R], or NaN when there is no number among them. *)
Definition extreme_of (R : Qc → Qc → Prop) (a : scalar) (vs : list scalar) (b : scalar) : Prop :=
  match b with
  | Num m => (Num m = a ∨ Num m ∈ vs) ∧ (∀ q, Num q = a ∨ Num q ∈ vs → R m q)
  | NaN => a = NaN ∧ ∀ q, Num q ∉ vs
  | _ => False
  end.

(** [m] only reads: returning or raising, it leaves the state as it
    found it. *)
Definition readonly {A} (m : M A) : Prop := ∀ st, (m st).2 = st.

(** Tables for the error and edge paths: a payload written as text, a
    payload beyond the slider's range, and a table without outcomes. *)
Definition text_payload_ds : pd.DataFrame :=
  {| pd.columns := ["Payload Mass (kg)"; "Launch Site"; "class"; "Booster Version Category"];
     pd.rows := [[Num (qz 500); Str "A"; Num (qz 1); Str "B1"];
                 [Str "heavy"; Str "B"; Num (qz 0); Str "B2"]] |}.

Definition heavy_ds : pd.DataFrame :=
  {| pd.columns := ["Payload Mass (kg)"; "Launch Site"; "class"; "Booster Version Category"];
     pd.rows := [[Num (qz 15600); Str "A"; Num (qz 1); Str "B5"];
                 [Num (qz 500); Str "A"; Num (qz 0); Str "B2"]] |}.

Definition no_class_ds : pd.DataFrame :=
  {| pd.columns := ["Payload Mass (kg)"; "Launch Site"];
     pd.rows := [[Num (qz 500); Str "A"]] |}.

(** A table with an outcome class that is neither 0 nor 1. *)
Definition odd_class_ds : pd.DataFrame :=
  {| pd.columns := ["Payload Mass (kg)"; "Launch Site"; "class"; "Booster Version Category"];
     pd.rows := [[Num (qz 500); Str "A"; Num (qz 1); Str "B1"];
                 [Num (qz 700); Str "A"; Num (qz 2); Str "B2"]] |}.

Definition state_of (ds : pd.DataFrame) : state :=
  {| objs := [ds]; stdout := []; spacex_df := Some 0 |}.

(** * Properties *)

(** ** Tables built by [accumulate] *)

Section accumulate_facts.
Context {W : Type} (op : W → W → W).
Implicit Types (k : scalar) (w : W) (acc es : list (scalar * W)).

Lemma accumulate_fresh k w acc :
  k ∉ acc.*1 → accumulate op k w acc = acc ++ [(k, w)].
Proof.
  induction acc as [|[k' w'] acc IH]; simpl; [done|].
  intros Hk. apply not_elem_of_cons in Hk as [Hne Hk].
  rewrite bool_decide_eq_false_2 by congruence. by rewrite IH.
Qed.

Lemma accumulate_keys_known k w acc :
  k ∈ acc.*1 → (accumulate op k w acc).*1 = acc.*1.
Proof.
  induction acc as [|[k' w'] acc IH]; simpl; [by intros ?%elem_of_nil|].
  intros Hk. case_bool_decide; simpl; [done|].
  apply elem_of_cons in Hk as [->|Hk]; [done|]. f_equal. by apply IH.
Qed.

Lemma accumulate_keys k w acc :
  (accumulate op k w acc).*1 = if decide (k ∈ acc.*1) then acc.*1 else acc.*1 ++ [k].
Proof.
  case_decide.
  - by apply accumulate_keys_known.
  - rewrite accumulate_fresh by done. by rewrite fmap_app.
Qed.

Lemma accumulate_NoDup k w acc :
  NoDup acc.*1 → NoDup (accumulate op k w acc).*1.
Proof.
  intros Hnd. rewrite accumulate_keys. case_decide; [done|].
  apply NoDup_app. split_and!; [done| |apply NoDup_singleton].
  intros x Hx ->%list_elem_of_singleton. done.
Qed.

Lemma group_from_NoDup acc es :
  NoDup acc.*1 → NoDup (group_from op acc es).*1.
Proof.
  revert acc. induction es as [|e es IH]; intros acc Hnd; simpl; [done|].
  apply IH. by apply accumulate_NoDup.
Qed.

Lemma group_from_keys acc es k :
  k ∈ (group_from op acc es).*1 ↔ k ∈ acc.*1 ∨ k ∈ es.*1.
Proof.
  revert acc. induction es as [|e es IH]; intros acc; simpl.
  - rewrite elem_of_nil. tauto.
  - rewrite IH, accumulate_keys, elem_of_cons. case_decide.
    + split; [tauto|]. intros [?|[->|?]]; tauto.
    + rewrite elem_of_app, list_elem_of_singleton. tauto.
Qed.

(** Items with pairwise distinct keys are not combined. *)
Lemma group_from_distinct acc es :
  NoDup (acc ++ es).*1 → group_from op acc es = acc ++ es.
Proof.
  revert acc. induction es as [|[k w] es IH]; intros acc Hnd; simpl.
  - by rewrite app_nil_r.
  - rewrite accumulate_fresh.
    + rewrite IH; rewrite <- app_assoc; done.
    + rewrite fmap_app in Hnd. apply NoDup_app in Hnd as (_ & Hdisj & _).
      intros Hk. apply (Hdisj k Hk). simpl. left.
Qed.
End accumulate_facts.

(** ** Counts as chart values *)

Lemma qn_add (a b : nat) : qn (a + b) = (qn a + qn b)%Qc.
Proof.
  unfold qn, qz, Qcplus. apply Q2Qc_eq_iff. simpl.
  rewrite !Qred_correct, Nat2Z.inj_add, inject_Z_plus. reflexivity.
Qed.

Lemma qn_nonneg (n : nat) : qc_leb (qz 0) (qn n) = true.
Proof.
  unfold qc_leb, qn, qz. apply Qle_bool_iff. simpl.
  rewrite !Qred_correct. change 0%Q with (inject_Z 0).
  rewrite <- Zle_Qle. lia.
Qed.

Lemma qc_leb_le (x y : Qc) : qc_leb x y = true ↔ (x <= y)%Qc.
Proof. unfold qc_leb, Qcle. apply Qle_bool_iff. Qed.

Lemma total_counts (t : list (scalar * nat)) :
  px.total (prod_map id qn <$> t) = qn (sum_list t.*2).
Proof.
  induction t as [|[k n] t IH]; csimpl; [done|].
  unfold px.total in *. simpl. by rewrite IH, qn_add.
Qed.

(** Counting in [nat] and then converting, or adding up converted
    counts, gives the same table. *)
Lemma accumulate_qn k n (acc : list (scalar * nat)) :
  accumulate Qcplus k (qn n) (prod_map id qn <$> acc)
  = prod_map id qn <$> accumulate Nat.add k n acc.
Proof.
  induction acc as [|[k' n'] acc IH]; csimpl; [done|].
  case_bool_decide; csimpl.
  - by rewrite qn_add.
  - by rewrite IH.
Qed.

Lemma group_from_qn (acc es : list (scalar * nat)) :
  group_from Qcplus (prod_map id qn <$> acc) (prod_map id qn <$> es)
  = prod_map id qn <$> group_from Nat.add acc es.
Proof.
  revert acc. induction es as [|[k n] es IH]; intros acc; csimpl; [done|].
  by rewrite accumulate_qn, IH.
Qed.

(** ** Tallies *)

Section tallies.
Implicit Types (k : scalar) (acc es : list (scalar * nat)).

Lemma weight_cons k e acc :
  weight k (e :: acc) = (if decide (e.1 = k) then e.2 else 0) + weight k acc.
Proof. unfold weight. rewrite filter_cons. by case_decide. Qed.

Lemma weight_accumulate k k' n acc :
  weight k (accumulate Nat.add k' n acc)
  = weight k acc + (if decide (k' = k) then n else 0).
Proof.
  induction acc as [|[k1 n1] acc IH]; simpl.
  - rewrite weight_cons. simpl. unfold weight. simpl. lia.
  - case_bool_decide; rewrite !weight_cons; simpl.
    + subst k1. repeat case_decide; lia.
    + rewrite IH. lia.
Qed.

Lemma weight_group_from k acc es :
  weight k (group_from Nat.add acc es) = weight k acc + weight k es.
Proof.
  revert acc. induction es as [|e es IH]; intros acc; simpl.
  - unfold weight at 3. simpl. lia.
  - rewrite IH, weight_accumulate, weight_cons. lia.
Qed.

Lemma weight_absent k acc : k ∉ acc.*1 → weight k acc = 0.
Proof.
  induction acc as [|[k' n'] acc IH]; csimpl; [done|].
  intros [Hne Hk]%not_elem_of_cons. rewrite weight_cons. simpl.
  rewrite decide_False by congruence. by rewrite IH.
Qed.

Lemma weight_present k n acc : NoDup acc.*1 → (k, n) ∈ acc → weight k acc = n.
Proof.
  induction acc as [|[k' n'] acc IH]; csimpl; [by intros _ ?%elem_of_nil|].
  intros [Hk' Hnd]%NoDup_cons [Heq|Hin]%elem_of_cons; rewrite weight_cons; simpl.
  - injection Heq as -> ->. rewrite decide_True by done.
    rewrite weight_absent by done. lia.
  - rewrite decide_False.
    + by rewrite IH.
    + intros ->. apply Hk'. apply list_elem_of_fmap. by exists (k, n).
Qed.

Lemma weight_units k xs : weight k ((λ x, (x, 1)) <$> xs) = occurrences k xs.
Proof.
  unfold occurrences. induction xs as [|x xs IH]; csimpl; [done|].
  rewrite weight_cons, filter_cons. simpl. case_decide; simpl; lia.
Qed.

Lemma accumulate_positive k n acc :
  0 < n → Forall (λ e, 0 < e.2) acc → Forall (λ e, 0 < e.2) (accumulate Nat.add k n acc).
Proof.
  intros Hn. induction 1 as [|[k' n'] acc Hpos Hacc IH]; simpl.
  - by repeat constructor.
  - case_bool_decide; constructor; simpl in *; try done. lia.
Qed.

Lemma tallies_positive xs : Forall (λ e, 0 < e.2) (tallies xs).
Proof.
  unfold tallies.
  enough (∀ acc, Forall (λ e, 0 < e.2) acc →
            Forall (λ e, 0 < e.2) (group_from Nat.add acc ((λ x, (x, 1)) <$> xs))) as H
    by (apply H; constructor).
  induction xs as [|x xs IH]; intros acc Hacc; csimpl; [done|].
  apply IH. apply accumulate_positive; [lia|done].
Qed.

Lemma tallies_NoDup xs : NoDup (tallies xs).*1.
Proof. apply group_from_NoDup. constructor. Qed.

Lemma tallies_weight k xs : weight k (tallies xs) = occurrences k xs.
Proof. unfold tallies. by rewrite weight_group_from, weight_units. Qed.

Lemma tallies_spec k n xs :
  (k, n) ∈ tallies xs ↔ n = occurrences k xs ∧ 0 < n.
Proof.
  split.
  - intros Hin. split.
    + rewrite <- tallies_weight. symmetry. apply weight_present; [apply tallies_NoDup|done].
    + pose proof (tallies_positive xs) as Hpos.
      rewrite Forall_forall in Hpos. apply (Hpos _ Hin).
  - intros [-> Hpos].
    assert (k ∈ (tallies xs).*1) as Hk.
    { destruct (decide (k ∈ (tallies xs).*1)) as [|Hk]; [done|].
      apply weight_absent in Hk. rewrite tallies_weight in Hk. lia. }
    apply list_elem_of_fmap in Hk as ([k' n'] & -> & Hin). simpl.
    pose proof (weight_present _ _ _ (tallies_NoDup xs) Hin) as Hw.
    rewrite tallies_weight in Hw. simpl in Hw. by rewrite Hw.
Qed.

Lemma sum_accumulate k n acc :
  sum_list (accumulate Nat.add k n acc).*2 = sum_list acc.*2 + n.
Proof.
  induction acc as [|[k' n'] acc IH]; csimpl; [lia|].
  case_bool_decide; csimpl; [lia|]. rewrite IH. lia.
Qed.

Lemma tallies_sum xs : sum_list (tallies xs).*2 = length xs.
Proof.
  unfold tallies.
  enough (∀ acc, sum_list (group_from Nat.add acc ((λ x, (x, 1)) <$> xs)).*2
                 = sum_list acc.*2 + length xs) as H by (rewrite H; simpl; lia).
  induction xs as [|x xs IH]; intros acc; csimpl; [lia|].
  rewrite IH, sum_accumulate. lia.
Qed.

(** Sorting rearranges the table and nothing else. *)
Lemma insert_desc_perm e acc : pd.insert_desc e acc ≡ₚ e :: acc.
Proof.
  induction acc as [|e' acc IH]; simpl; [done|].
  destruct (Nat.leb _ _); [done|]. rewrite IH. apply perm_swap.
Qed.

Lemma sort_desc_perm acc : pd.sort_desc acc ≡ₚ acc.
Proof.
  induction acc as [|e acc IH]; simpl; [done|].
  rewrite insert_desc_perm. by rewrite IH.
Qed.
End tallies.

(** ** Frames *)

Lemma compress_fmap {A} (f : A → bool) (l : list A) :
  pd.compress (f <$> l) l = filter (λ x, f x = true) l.
Proof.
  induction l as [|x l IH]; csimpl; [done|].
  rewrite filter_cons. destruct (f x); simpl; by rewrite IH.
Qed.

Lemma getitem_mask_fmap (df : pd.DataFrame) (f : list scalar → bool) :
  pd.getitem_mask df (f <$> pd.rows df)
  = Ok {| pd.columns := pd.columns df; pd.rows := filter (λ r, f r = true) (pd.rows df) |}.
Proof.
  unfold pd.getitem_mask. rewrite length_fmap, Nat.eqb_refl. by rewrite compress_fmap.
Qed.

Lemma getitem_mask_fmap_rows cols (rs : list (list scalar)) (f : list scalar → bool) :
  pd.getitem_mask {| pd.columns := cols; pd.rows := rs |} (f <$> rs)
  = Ok {| pd.columns := cols; pd.rows := filter (λ r, f r = true) rs |}.
Proof. apply (getitem_mask_fmap {| pd.columns := cols; pd.rows := rs |}). Qed.

(** ** Running the program *)

Lemma has_column_same (df df' : pd.DataFrame) c :
  pd.columns df' = pd.columns df → pd.has_column df' c = pd.has_column df c.
Proof. unfold pd.has_column. by intros ->. Qed.

Lemma eq_column (ds : pd.DataFrame) c v :
  pd.eq {| pd.name := c; pd.values := pd.cell ds c <$> pd.rows ds |} v
  = (λ r, py_eq (pd.cell ds c r) v) <$> pd.rows ds.
Proof. unfold pd.eq. simpl. by rewrite <- list_fmap_compose. Qed.

Lemma index_of_Some c cs : is_Some (pd.index_of c cs) ↔ c ∈ cs.
Proof.
  induction cs as [|c' cs IH]; simpl.
  - rewrite elem_of_nil. split; [by intros [? ?]|done].
  - destruct (String.eqb_spec c' c) as [->|Hne].
    + split; [left|by eexists].
    + rewrite fmap_is_Some, IH, elem_of_cons. split; [by right|]. by intros [->|?].
Qed.

Lemma has_column_elem_of (df : pd.DataFrame) c :
  bool_decide (c ∈ pd.columns df) = pd.has_column df c.
Proof. unfold pd.has_column. apply bool_decide_ext. by rewrite index_of_Some. Qed.

Lemma lookup_snoc {A} (l : list A) (x : A) : (l ++ [x]) !! length l = Some x.
Proof. by apply list_lookup_middle. Qed.

Lemma insert_snoc {A} (l : list A) (x y : A) : <[length l := y]> (l ++ [x]) = l ++ [y].
Proof. by rewrite insert_app_r_alt, Nat.sub_diag by lia. Qed.

Ltac run_step :=
  match goal with
  | H : spacex_df ?st = _ |- context [spacex_df ?st] => rewrite H
  | H : objs ?st !! ?l = _ |- context [objs ?st !! ?l] => rewrite H
  | H : pd.has_column ?df ?c = _ |- context [pd.has_column ?df ?c] => rewrite H
  | |- context [bool_decide (?c ∈ pd.columns ?df)] => rewrite (has_column_elem_of df c)
  | H : ?b = _ |- context [negb ?b] => rewrite H
  | |- _ => rewrite insert_snoc
  | |- _ => rewrite lookup_snoc
  | |- context [pd.eq {| pd.name := ?c; pd.values := pd.cell ?ds ?c <$> pd.rows ?ds |} ?v] =>
      rewrite (eq_column ds c v)
  | |- context [pd.getitem_mask ?df (?f <$> pd.rows ?df)] => rewrite (getitem_mask_fmap df f)
  | |- context [pd.getitem_mask {| pd.columns := ?cols; pd.rows := ?rs |} (?f <$> ?rs)] =>
      rewrite (getitem_mask_fmap_rows cols rs f)
  | |- context [pd.has_column {| pd.columns := pd.columns ?df; pd.rows := ?r |} ?c] =>
      change (pd.has_column {| pd.columns := pd.columns df; pd.rows := r |} c)
        with (pd.has_column df c)
  | |- context [pd.cell {| pd.columns := pd.columns ?df; pd.rows := ?r |} ?c] =>
      change (pd.cell {| pd.columns := pd.columns df; pd.rows := r |} c) with (pd.cell df c)
  | |- _ => progress unfold mbind, mret, M_bind, M_ret, result_bind, result_ret, lift, deref,
              alloc, store, global_spacex_df, getitem, getitem_mask, copy, columns,
              set_columns, px_pie, px_scatter, pd.getitem, series_ge, series_le, pd.copy
  | |- _ => progress cbn [objs stdout spacex_df fst snd pd.values pd.name pd.columns pd.rows
                          negb pd.copy]
  end.

(** What [px.pie] and [px.scatter] make of the frames the program hands
    them. *)
Lemma pie_of_selection (ds : pd.DataFrame) (rs : list (list scalar)) names title :
  pd.has_column ds names = true →
  px.pie {| pd.columns := pd.columns ds; pd.rows := rs |} None names title
  = Ok (px.Pie (pd.cell ds names <$> rs) None title).
Proof.
  intros Hc. unfold px.pie, px.column_arg.
  rewrite (has_column_same ds) by done. by rewrite Hc.
Qed.

Lemma pie_of_counts (its : list (scalar * nat)) title :
  px.pie {| pd.columns := ["status"; "count"];
            pd.rows := (λ e, [e.1; Num (qz (Z.of_nat e.2))]) <$> its |}
         (Some "count") "status" title
  = Ok (px.Pie its.*1 (Some ((λ e, Num (qn e.2)) <$> its)) title).
Proof.
  unfold px.pie, px.column_arg. cbn [pd.rows]. rewrite <- !list_fmap_compose. reflexivity.
Qed.

Lemma scatter_of_selection (ds : pd.DataFrame) (rs : list (list scalar)) title :
  well_formed ds = true →
  px.scatter {| pd.columns := pd.columns ds; pd.rows := rs |}
             "Payload Mass (kg)" "class" "Booster Version Category" title
  = Ok (px.Scatter (point_of ds <$> charted ds rs) title).
Proof.
  unfold well_formed. intros [Hcols _]%andb_prop. simpl in Hcols.
  repeat (apply andb_prop in Hcols as [? Hcols]).
  unfold px.scatter, px.column_arg.
  rewrite !(has_column_same ds {| pd.columns := pd.columns ds |}) by done.
  repeat match goal with H : pd.has_column _ _ = true |- _ => rewrite H; clear H end.
  reflexivity.
Qed.

Lemma run_pie_all st l ds :
  spacex_df st = Some l → objs st !! l = Some ds →
  pd.has_column ds "class" = true → pd.has_column ds "Launch Site" = true →
  (get_pie_chart "ALL" st).1
  = Ok (px.Pie (site_of ds <$> filter (λ r, is_success ds r = true) (pd.rows ds)) None
               "Total Successful Launches by Site").
Proof.
  intros Hl Hds Hclass Hsite. unfold get_pie_chart.
  change (String.eqb "ALL" "ALL") with true. cbv iota.
  repeat run_step. by rewrite pie_of_selection.
Qed.

Lemma run_pie_site st l ds S :
  spacex_df st = Some l → objs st !! l = Some ds →
  pd.has_column ds "class" = true → pd.has_column ds "Launch Site" = true →
  String.eqb S "ALL" = false →
  (get_pie_chart S st).1
  = Ok (px.Pie (site_outcomes ds S).*1 (Some ((λ e, Num (qn e.2)) <$> site_outcomes ds S))
               ("Successful vs. Failed Launches for site " +:+ S)).
Proof.
  intros Hl Hds Hclass Hsite HS. unfold get_pie_chart. rewrite HS.
  repeat run_step.
  unfold pd.set_columns, pd.reset_index. cbn [length pd.columns pd.rows Nat.eqb].
  repeat run_step. by rewrite pie_of_counts.
Qed.

(** ** Counting rows *)

Lemma length_filter_fmap {A B} (f : A → B) (P : B → Prop) `{!∀ y, Decision (P y)} (l : list A) :
  length (filter P (f <$> l)) = length (filter (λ x, P (f x)) l).
Proof.
  induction l as [|x l IH]; csimpl; [done|].
  rewrite !filter_cons. case_decide; simpl; by rewrite IH.
Qed.

Lemma length_filter_iff {A} (P Q : A → Prop) `{!∀ x, Decision (P x)} `{!∀ x, Decision (Q x)}
    (l : list A) :
  (∀ x, x ∈ l → P x ↔ Q x) → length (filter P l) = length (filter Q l).
Proof.
  induction l as [|x l IH]; intros Hiff; [done|].
  rewrite !filter_cons.
  assert (P x ↔ Q x) as Hx by (apply Hiff; left).
  assert (length (filter P l) = length (filter Q l)) as Hl
    by (apply IH; intros y Hy; apply Hiff; by right).
  repeat case_decide; simpl; try tauto; by rewrite Hl.
Qed.

Lemma py_eq_sym (a b : scalar) : py_eq a b = py_eq b a.
Proof.
  destruct a, b; simpl; try done; apply bool_decide_ext; split; congruence.
Qed.

Lemma py_eq_true (a b : scalar) : py_eq a b = true → a = b.
Proof. destruct a, b; simpl; try done; by intros ?%bool_decide_eq_true. Qed.

Lemma py_eq_Str (a : scalar) (s : string) : py_eq a (Str s) = true ↔ a = Str s.
Proof.
  split; [apply py_eq_true|]. intros ->. simpl. by apply bool_decide_eq_true.
Qed.

(** ** Slices *)

Lemma elem_of_counts (t : list (scalar * nat)) (l : scalar) (v : Qc) :
  (l, v) ∈ prod_map id qn <$> t ↔ ∃ n, v = qn n ∧ (l, n) ∈ t.
Proof.
  rewrite list_elem_of_fmap. split.
  - intros ([l' n] & Heq & Hin). injection Heq as -> ->. by exists n.
  - intros (n & -> & Hin). by exists (l, n).
Qed.

Lemma keys_counts (t : list (scalar * nat)) : (prod_map id qn <$> t).*1 = t.*1.
Proof. rewrite <- list_fmap_compose. by apply list_fmap_ext; intros ? []. Qed.

Lemma slices_of_labels (ls : list scalar) title :
  px.slices (px.Pie ls None title) = prod_map id qn <$> tallies ls.
Proof.
  unfold px.slices, tallies. simpl.
  change (@nil (scalar * Qc)) with (prod_map id qn <$> @nil (scalar * nat)).
  rewrite <- group_from_qn. f_equal. rewrite <- list_fmap_compose. reflexivity.
Qed.

Lemma entries_of_counts (its : list (scalar * nat)) title :
  px.entries (px.Pie its.*1 (Some ((λ e, Num (qn e.2)) <$> its)) title)
  = prod_map id qn <$> its.
Proof.
  simpl. induction its as [|[k n] its IH]; csimpl; [done|].
  by rewrite qn_nonneg, IH.
Qed.

Lemma slices_of_counts (its : list (scalar * nat)) title :
  NoDup its.*1 →
  px.slices (px.Pie its.*1 (Some ((λ e, Num (qn e.2)) <$> its)) title)
  = prod_map id qn <$> its.
Proof.
  intros Hnd. unfold px.slices. rewrite entries_of_counts.
  change (@nil (scalar * Qc)) with (prod_map id qn <$> @nil (scalar * nat)).
  rewrite group_from_qn. by rewrite group_from_distinct.
Qed.

(** C1: with site "ALL" the pie callback keeps the rows of class 1 and
    returns a pie titled "Total Successful Launches by Site" with one
    slice per launch site among those rows, worth the number of
    successful launches at that site; the slice values add up to the
    number of rows of class 1. *)
Theorem pie_all_counts_successes_by_site (st : state) (ds : pd.DataFrame) :
  loaded st ds →
  pd.has_column ds "class" = true →
  pd.has_column ds "Launch Site" = true →
  ∃ fig,
    (get_pie_chart "ALL" st).1 = Ok fig
    ∧ px.title fig = "Total Successful Launches by Site"
    ∧ NoDup (px.slices fig).*1
    ∧ (∀ s v, (s, v) ∈ px.slices fig ↔
         ∃ n, v = qn n ∧ 0 < n
              ∧ n = count_rows (λ r, is_success ds r && bool_decide (site_of ds r = s)) ds)
    ∧ px.total (px.slices fig) = qn (count_rows (is_success ds) ds).
Proof.
  intros (l & Hl & Hds) Hclass Hsite. eexists. split; [by eapply run_pie_all|].
  rewrite slices_of_labels. split_and!.
  - done.
  - rewrite keys_counts. apply tallies_NoDup.
  - intros s v. rewrite elem_of_counts. unfold count_rows.
    assert (occurrences s (site_of ds <$> filter (λ r, is_success ds r = true) (pd.rows ds))
            = length (filter (λ r, (is_success ds r && bool_decide (site_of ds r = s)) = true)
                             (pd.rows ds))) as Hocc.
    { unfold occurrences. rewrite length_filter_fmap, list_filter_filter.
      apply length_filter_iff. intros r _.
      rewrite andb_true_iff, bool_decide_eq_true. tauto. }
    split.
    + intros (n & -> & [-> Hpos]%tallies_spec). eexists. by rewrite <- Hocc.
    + intros (n & -> & Hpos & ->). eexists. split; [done|].
      apply tallies_spec. by rewrite Hocc.
  - rewrite total_counts, tallies_sum, length_fmap. done.
Qed.

Lemma pie_all_counts_successes_by_site_witness :
  ∃ fig,
    (get_pie_chart "ALL" ex_st).1 = Ok fig
    ∧ px.title fig = "Total Successful Launches by Site"
    ∧ NoDup (px.slices fig).*1
    ∧ (∀ s v, (s, v) ∈ px.slices fig ↔
         ∃ n, v = qn n ∧ 0 < n
              ∧ n = count_rows (λ r, is_success ex_ds r && bool_decide (site_of ex_ds r = s)) ex_ds)
    ∧ px.total (px.slices fig) = qn (count_rows (is_success ex_ds) ex_ds).
Proof.
  apply (pie_all_counts_successes_by_site ex_st ex_ds).
  - exists 0. split; reflexivity.
  - reflexivity.
  - reflexivity.
Defined.

(** ** Outcome labels of one site *)

Lemma dict_get_outcome (c : scalar) :
  pd.dict_get outcome_labels c
  = if py_eq c (Num (qz 1)) then Str "Success"
    else if py_eq c (Num (qz 0)) then Str "Failure" else NaN.
Proof.
  unfold pd.dict_get, outcome_labels. cbn [find fst snd].
  rewrite (py_eq_sym (Num (qz 1)) c), (py_eq_sym (Num (qz 0)) c).
  by destruct (py_eq c (Num (qz 1))), (py_eq c (Num (qz 0))).
Qed.

Lemma outcome_not_both (c : scalar) :
  py_eq c (Num (qz 1)) = true → py_eq c (Num (qz 0)) = true → False.
Proof. intros ->%py_eq_true. simpl. discriminate. Qed.

Lemma site_outcomes_sorted ds S : site_outcomes ds S = pd.sort_desc (tallies (site_labels ds S)).
Proof. reflexivity. Qed.

Lemma site_labels_occurrences ds S (k : scalar) (f : list scalar → bool) :
  (∀ r, pd.dict_get outcome_labels (class_of ds r) = k ∧
        notna (pd.dict_get outcome_labels (class_of ds r)) = true ↔ f r = true) →
  occurrences k (site_labels ds S) = count_rows (λ r, at_site ds S r && f r) ds.
Proof.
  intros Hf. unfold occurrences, site_labels, count_rows.
  rewrite list_filter_filter, <- list_fmap_compose, length_filter_fmap, list_filter_filter.
  apply length_filter_iff. intros r _. simpl.
  rewrite andb_true_iff, <- Hf. tauto.
Qed.

Lemma site_labels_success ds S :
  occurrences (Str "Success") (site_labels ds S)
  = count_rows (λ r, at_site ds S r && is_success ds r) ds.
Proof.
  apply site_labels_occurrences. intros r. rewrite dict_get_outcome. unfold is_success.
  destruct (py_eq (class_of ds r) (Num (qz 1))); [by split|].
  destruct (py_eq (class_of ds r) (Num (qz 0))); split; intros; destruct_and?; done.
Qed.

Lemma site_labels_failure ds S :
  occurrences (Str "Failure") (site_labels ds S)
  = count_rows (λ r, at_site ds S r && is_failure ds r) ds.
Proof.
  apply site_labels_occurrences. intros r. rewrite dict_get_outcome. unfold is_failure.
  destruct (py_eq (class_of ds r) (Num (qz 1))) eqn:H1;
    destruct (py_eq (class_of ds r) (Num (qz 0))) eqn:H0;
    try (split; intros; destruct_and?; done).
  destruct (outcome_not_both _ H1 H0).
Qed.

Lemma site_labels_two ds S (k : scalar) :
  k ∈ site_labels ds S → k = Str "Success" ∨ k = Str "Failure".
Proof.
  unfold site_labels. rewrite list_elem_of_filter, <- list_fmap_compose, list_elem_of_fmap.
  intros (Hna & r & -> & _). simpl in *. rewrite dict_get_outcome in *.
  destruct (py_eq _ _); [by left|]. destruct (py_eq _ _); [by right|done].
Qed.

Lemma occurrences_positive (k : scalar) (xs : list scalar) : 0 < occurrences k xs → k ∈ xs.
Proof.
  unfold occurrences. induction xs as [|x xs IH]; simpl; [lia|].
  rewrite filter_cons. case_decide; [subst; left|]. intros ?. right. by apply IH.
Qed.

Lemma site_labels_binary ds S :
  binary_class ds = true →
  length (site_labels ds S) = count_rows (at_site ds S) ds.
Proof.
  unfold binary_class, site_labels, count_rows. rewrite forallb_forall.
  intros Hbin. rewrite <- list_fmap_compose, length_filter_fmap, list_filter_filter.
  apply length_filter_iff. intros r Hr%list_elem_of_In. specialize (Hbin r Hr).
  simpl. rewrite dict_get_outcome. unfold is_success, is_failure in Hbin.
  destruct (py_eq (class_of ds r) (Num (qz 1))); [tauto|].
  destruct (py_eq (class_of ds r) (Num (qz 0))); [tauto|done].
Qed.

Lemma length_two_labels (xs : list scalar) :
  (∀ k, k ∈ xs → k = Str "Success" ∨ k = Str "Failure") →
  length xs = occurrences (Str "Success") xs + occurrences (Str "Failure") xs.
Proof.
  unfold occurrences. induction xs as [|x xs IH]; intros Hx; [done|].
  rewrite !filter_cons. simpl. rewrite IH by (intros k Hk; apply Hx; by right).
  destruct (Hx x) as [-> | ->]; [left|..]; repeat case_decide; simpl; try done; lia.
Qed.

(** C2: for a site [S] other than "ALL" the pie callback keeps the rows
    at [S] and returns a pie whose slices are labelled "Success" (class 1)
    and "Failure" (class 0), each worth the number of such rows and absent
    when there is none; over a dataset of binary outcome classes the
    values add up to the number of rows at [S]; a site matching no row
    gives a pie without slices, and no exception.  The class cells are
    those of the model: numbers, text or missing values, not Python
    booleans. *)
Theorem pie_site_counts_outcomes (st : state) (ds : pd.DataFrame) (S : string) :
  loaded st ds →
  pd.has_column ds "class" = true →
  pd.has_column ds "Launch Site" = true →
  S ≠ "ALL" →
  ∃ fig,
    (get_pie_chart S st).1 = Ok fig
    ∧ px.title fig = "Successful vs. Failed Launches for site " +:+ S
    ∧ NoDup (px.slices fig).*1
    ∧ (∀ l, l ∈ (px.slices fig).*1 → l = Str "Success" ∨ l = Str "Failure")
    ∧ (∀ l v, (l, v) ∈ px.slices fig ↔
         ∃ n, v = qn n ∧ 0 < n ∧
           ((l = Str "Success" ∧ n = count_rows (λ r, at_site ds S r && is_success ds r) ds)
            ∨ (l = Str "Failure" ∧ n = count_rows (λ r, at_site ds S r && is_failure ds r) ds)))
    ∧ px.total (px.slices fig)
      = qn (count_rows (λ r, at_site ds S r && is_success ds r) ds
            + count_rows (λ r, at_site ds S r && is_failure ds r) ds)
    ∧ (binary_class ds = true →
       px.total (px.slices fig) = qn (count_rows (at_site ds S) ds))
    ∧ (count_rows (at_site ds S) ds = 0 → px.slices fig = []).
Proof.
  intros (l & Hl & Hds) Hclass Hsite HS. eexists. split.
  { eapply run_pie_site; try done. by apply String.eqb_neq. }
  assert (NoDup (site_outcomes ds S).*1) as Hnd.
  { rewrite site_outcomes_sorted, sort_desc_perm. apply tallies_NoDup. }
  rewrite slices_of_counts by done.
  assert (∀ k n, (k, n) ∈ site_outcomes ds S ↔ n = occurrences k (site_labels ds S) ∧ 0 < n)
    as Hitems.
  { intros k n. rewrite site_outcomes_sorted, sort_desc_perm. apply tallies_spec. }
  assert (sum_list (site_outcomes ds S).*2 = length (site_labels ds S)) as Hsum.
  { rewrite site_outcomes_sorted, sort_desc_perm. apply tallies_sum. }
  assert (∀ k n, (k, n) ∈ site_outcomes ds S → k = Str "Success" ∨ k = Str "Failure") as Htwo.
  { intros k n [-> Hpos]%Hitems. by eapply site_labels_two, occurrences_positive. }
  split_and!.
  - done.
  - by rewrite keys_counts.
  - rewrite keys_counts. intros k ([k' n] & -> & Hin)%list_elem_of_fmap. by eapply Htwo.
  - intros k v. rewrite elem_of_counts. split.
    + intros (n & -> & Hin). exists n. destruct (Htwo _ _ Hin) as [->| ->];
        apply Hitems in Hin as [-> Hpos]; (split; [done|]); (split; [done|]).
      * left. by rewrite site_labels_success.
      * right. by rewrite site_labels_failure.
    + intros (n & -> & Hpos & [[-> ->]|[-> ->]]); eexists; (split; [done|]);
        apply Hitems; by rewrite ?site_labels_success, ?site_labels_failure.
  - rewrite total_counts, Hsum. f_equal.
    rewrite <- site_labels_success, <- site_labels_failure.
    apply length_two_labels, site_labels_two.
  - intros Hbin. by rewrite total_counts, Hsum, site_labels_binary.
  - intros Hnone. rewrite site_outcomes_sorted. unfold site_labels.
    unfold count_rows in Hnone. apply nil_length_inv in Hnone. by rewrite Hnone.
Qed.

Lemma pie_site_counts_outcomes_witness :
  ∃ fig,
    (get_pie_chart "A" ex_st).1 = Ok fig
    ∧ px.title fig = "Successful vs. Failed Launches for site " +:+ "A"
    ∧ NoDup (px.slices fig).*1
    ∧ (∀ l, l ∈ (px.slices fig).*1 → l = Str "Success" ∨ l = Str "Failure")
    ∧ (∀ l v, (l, v) ∈ px.slices fig ↔
         ∃ n, v = qn n ∧ 0 < n ∧
           ((l = Str "Success" ∧ n = count_rows (λ r, at_site ex_ds "A" r && is_success ex_ds r) ex_ds)
            ∨ (l = Str "Failure" ∧ n = count_rows (λ r, at_site ex_ds "A" r && is_failure ex_ds r) ex_ds)))
    ∧ px.total (px.slices fig)
      = qn (count_rows (λ r, at_site ex_ds "A" r && is_success ex_ds r) ex_ds
            + count_rows (λ r, at_site ex_ds "A" r && is_failure ex_ds r) ex_ds)
    ∧ (binary_class ex_ds = true →
       px.total (px.slices fig) = qn (count_rows (at_site ex_ds "A") ex_ds))
    ∧ (count_rows (at_site ex_ds "A") ex_ds = 0 → px.slices fig = []).
Proof.
  apply (pie_site_counts_outcomes ex_st ex_ds "A").
  - exists 0. split; reflexivity.
  - reflexivity.
  - reflexivity.
  - discriminate.
Defined.

(** ** The scatter callback *)

Lemma rmap_total {A B} (f : A → result B) (g : A → B) (l : list A) :
  (∀ x, x ∈ l → f x = Ok (g x)) → rmap f l = Ok (g <$> l).
Proof.
  induction l as [|x l IH]; intros Hf; csimpl; [done|].
  rewrite Hf by left. rewrite IH by (intros y Hy; apply Hf; by right). done.
Qed.

Lemma py_ge_numeric (a b : scalar) :
  is_numeric a = true → is_numeric b = true → py_ge a b = Ok (num_le b a).
Proof. by destruct a, b. Qed.

Lemma py_le_numeric (a b : scalar) :
  is_numeric a = true → is_numeric b = true → py_le a b = Ok (num_le a b).
Proof. by destruct a, b. Qed.

Lemma and_fmap {A} (f g : A → bool) (l : list A) :
  pd.and (f <$> l) (g <$> l) = (λ x, f x && g x) <$> l.
Proof. unfold pd.and. induction l as [|x l IH]; csimpl; [done|]. by rewrite IH. Qed.

Lemma well_formed_columns ds c :
  well_formed ds = true →
  c ∈ ["Payload Mass (kg)"; "Launch Site"; "class"; "Booster Version Category"] →
  pd.has_column ds c = true.
Proof.
  unfold well_formed. intros [Hcols _]%andb_prop Hc.
  rewrite forallb_forall in Hcols. by apply Hcols, list_elem_of_In.
Qed.

Lemma well_formed_payload ds r :
  well_formed ds = true → r ∈ pd.rows ds → is_numeric (payload_of ds r) = true.
Proof.
  unfold well_formed. intros [_ Hrows]%andb_prop Hr.
  rewrite forallb_forall in Hrows. by apply Hrows, list_elem_of_In.
Qed.

Lemma isinstance_number_Atom (a : scalar) : isinstance_number (Atom a) = is_numeric a.
Proof. by destruct a. Qed.

Lemma ge_payload ds (lo : scalar) :
  well_formed ds = true → is_numeric lo = true →
  pd.ge {| pd.name := "Payload Mass (kg)";
           pd.values := pd.cell ds "Payload Mass (kg)" <$> pd.rows ds |} lo
  = Ok ((λ r, num_le lo (payload_of ds r)) <$> pd.rows ds).
Proof.
  intros Hwf Hlo. unfold pd.ge. cbn [pd.values].
  rewrite (rmap_total _ (λ x, num_le lo x)).
  - by rewrite <- list_fmap_compose.
  - intros x (r & -> & Hr)%list_elem_of_fmap.
    apply py_ge_numeric; [by apply well_formed_payload|done].
Qed.

Lemma le_payload ds (hi : scalar) :
  well_formed ds = true → is_numeric hi = true →
  pd.le {| pd.name := "Payload Mass (kg)";
           pd.values := pd.cell ds "Payload Mass (kg)" <$> pd.rows ds |} hi
  = Ok ((λ r, num_le (payload_of ds r) hi) <$> pd.rows ds).
Proof.
  intros Hwf Hhi. unfold pd.le. cbn [pd.values].
  rewrite (rmap_total _ (λ x, num_le x hi)).
  - by rewrite <- list_fmap_compose.
  - intros x (r & -> & Hr)%list_elem_of_fmap.
    apply py_le_numeric; [by apply well_formed_payload|done].
Qed.

Lemma run_scatter st l ds site low high :
  spacex_df st = Some l → objs st !! l = Some ds →
  well_formed ds = true →
  (get_scatter_chart site (PyList [low; high]) st).1
  = Ok (px.Scatter (point_of ds <$> charted ds (site_rows ds site (interval_rows ds low high)))
                   (scatter_title site)).
Proof.
  intros Hl Hds Hwf.
  pose proof (well_formed_columns ds "Payload Mass (kg)" Hwf ltac:(by left)) as Hp.
  pose proof (well_formed_columns ds "Launch Site" Hwf ltac:(right; by left)) as Hs.
  unfold get_scatter_chart, site_rows, scatter_title. cbn [unpack2].
  assert (isinstance_number low && isinstance_number high = true
          ∧ (∃ lo hi, low = Atom lo ∧ high = Atom hi
                      ∧ is_numeric lo = true ∧ is_numeric hi = true
                      ∧ interval_rows ds low high
                        = filter (λ r, within ds lo hi r = true) (pd.rows ds))
          ∨ isinstance_number low && isinstance_number high = false
            ∧ interval_rows ds low high = pd.rows ds) as [(Hnum & lo & hi & -> & -> & Hlo & Hhi & ->)|[Hnum ->]].
  { destruct low as [lo|]; [|by right].
    destruct high as [hi|]; [|right; split; [apply andb_false_r|done]].
    rewrite !isinstance_number_Atom. unfold interval_rows.
    destruct (is_numeric lo) eqn:Hlo, (is_numeric hi) eqn:Hhi; simpl; try (by right).
    left. split; [done|]. by exists lo, hi. }
  - destruct (String.eqb site "ALL") eqn:Hsite; repeat run_step;
      rewrite ge_payload, le_payload, and_fmap by done; repeat run_step;
      by rewrite scatter_of_selection.
  - destruct (String.eqb site "ALL") eqn:Hsite; repeat run_step;
      by rewrite scatter_of_selection.
Qed.



Lemma interval_rows_numbers ds (lo hi : scalar) :
  is_numeric lo = true → is_numeric hi = true →
  interval_rows ds (Atom lo) (Atom hi) = filter (λ r, within ds lo hi r = true) (pd.rows ds).
Proof. unfold interval_rows. by intros -> ->. Qed.



Lemma elem_of_charted ds rs r :
  r ∈ charted ds rs ↔ has_booster ds r = true ∧ r ∈ rs.
Proof. unfold charted. by rewrite list_elem_of_filter. Qed.










(** C7: over a dataset without the payload-mass column the scatter
    callback returns an empty chart titled "Payload Mass (kg) column
    missing", whatever the site and the two ends of the interval; it
    creates no frame on the way, so no interval or site step ran. *)
Theorem scatter_missing_payload_column (st : state) (ds : pd.DataFrame) (site : string)
    (low high : pyval) :
  loaded st ds →
  pd.has_column ds "Payload Mass (kg)" = false →
  get_scatter_chart site (PyList [low; high]) st
  = (Ok (px.Scatter [] "Payload Mass (kg) column missing"), st).
Proof.
  intros (l & Hl & Hds) Hp. unfold get_scatter_chart. cbn [unpack2].
  repeat run_step. reflexivity.
Qed.

Lemma scatter_missing_payload_column_witness :
  get_scatter_chart "A" (PyList [Atom (Num (qz 0)); Atom (Str "x")])
                    {| objs := [no_payload_ds]; stdout := []; spacex_df := Some 0 |}
  = (Ok (px.Scatter [] "Payload Mass (kg) column missing"),
     {| objs := [no_payload_ds]; stdout := []; spacex_df := Some 0 |}).
Proof.
  apply (scatter_missing_payload_column _ no_payload_ds).
  - exists 0. split; reflexivity.
  - reflexivity.
Defined.

(** C10: the scatter callback unpacks its interval before any guard.
    Over a well-formed dataset every two-element list yields a chart;
    an argument that does not unpack into two items makes the callback
    raise at once, in any state, so the non-number fallback is never
    reached for it; None is such an argument. *)
Theorem scatter_unpacks_before_guards :
  (∀ st ds site low high,
     loaded st ds → well_formed ds = true →
     ∃ fig, (get_scatter_chart site (PyList [low; high]) st).1 = Ok fig)
  ∧ (∀ st site v,
       (∀ low high, unpack2 v ≠ Ok (low, high)) →
       ∃ e, get_scatter_chart site v st = (Raise e, st))
  ∧ (∀ st site, get_scatter_chart site (Atom PNone) st = (Raise TypeError, st)).
Proof.
  split_and!.
  - intros st ds site low high (l & Hl & Hds) Hwf. eexists. by eapply run_scatter.
  - intros st site v Hv. unfold get_scatter_chart, mbind, M_bind, lift.
    destruct (unpack2 v) as [[low high]|e] eqn:Hu; [by destruct (Hv low high)|].
    by exists e.
  - done.
Qed.

Lemma scatter_unpacks_before_guards_witness :
  ∃ fig, (get_scatter_chart "B" (PyList [Atom (Str "low"); PyList []]) ex_st).1 = Ok fig.
Proof.
  apply (proj1 scatter_unpacks_before_guards ex_st ex_ds).
  - exists 0. split; reflexivity.
  - reflexivity.
Defined.

(** ** The loader and the layout *)

(** C5: when the CSV file is not found the loader raises nothing: it
    prints a diagnostic and binds [spacex_df] to a new one-row table with
    exactly the columns Payload Mass (kg), Launch Site, class and Booster
    Version Category, holding payload 0, site "Default", class 0 and
    booster category "Default". *)
Theorem loader_missing_file_gives_placeholder (fs : filesystem) (st : state) :
  fs "spacex_launch_dash.csv" = None →
  ∃ st' ds,
    load_dataset fs st = (Ok (), st')
    ∧ stdout st' = stdout st ++ ["Error: 'spacex_launch_dash.csv' not found. Please ensure the file is in the correct directory."]
    ∧ objs st' = objs st ++ [ds]
    ∧ loaded st' ds
    ∧ pd.columns ds = ["Payload Mass (kg)"; "Launch Site"; "class"; "Booster Version Category"]
    ∧ ∃ r, pd.rows ds = [r]
           ∧ length r = 4
           ∧ payload_of ds r = Num (qz 0)
           ∧ site_of ds r = Str "Default"
           ∧ class_of ds r = Num (qz 0)
           ∧ booster_of ds r = Str "Default".
Proof.
  intros Hfs. exists {| objs := objs st ++ [placeholder];
                        stdout := stdout st ++ ["Error: 'spacex_launch_dash.csv' not found. Please ensure the file is in the correct directory."];
                        spacex_df := Some (length (objs st)) |}, placeholder.
  split.
  { unfold load_dataset, try_except_FileNotFoundError, read_csv. rewrite Hfs.
    reflexivity. }
  split_and!; try done.
  - exists (length (objs st)). split; [done|]. apply lookup_snoc.
  - by eexists.
Qed.

Lemma loader_missing_file_gives_placeholder_witness :
  ∃ st' ds,
    load_dataset (λ _, None) init_state = (Ok (), st')
    ∧ stdout st' = stdout init_state ++ ["Error: 'spacex_launch_dash.csv' not found. Please ensure the file is in the correct directory."]
    ∧ objs st' = objs init_state ++ [ds]
    ∧ loaded st' ds
    ∧ pd.columns ds = ["Payload Mass (kg)"; "Launch Site"; "class"; "Booster Version Category"]
    ∧ ∃ r, pd.rows ds = [r]
           ∧ length r = 4
           ∧ payload_of ds r = Num (qz 0)
           ∧ site_of ds r = Str "Default"
           ∧ class_of ds r = Num (qz 0)
           ∧ booster_of ds r = Str "Default".
Proof.
  apply (loader_missing_file_gives_placeholder (λ _, None) init_state). reflexivity.
Defined.

Lemma unique_from_ext (s1 s2 xs : list scalar) :
  (∀ y, y ∈ s1 ↔ y ∈ s2) → pd.unique_from s1 xs = pd.unique_from s2 xs.
Proof.
  revert s1 s2. induction xs as [|x xs IH]; intros s1 s2 Hs; simpl; [done|].
  rewrite (bool_decide_ext _ _ (Hs x)). case_bool_decide; [by apply IH|].
  f_equal. apply IH. intros y. rewrite !elem_of_cons, Hs. done.
Qed.

Lemma unique_first_seen (xs : list scalar) :
  pd.unique_from [] xs = first_seen xs.
Proof.
  unfold first_seen.
  enough (∀ acc, fold_left (λ acc x, if bool_decide (x ∈ acc) then acc else acc ++ [x]) xs acc
                 = acc ++ pd.unique_from acc xs) as H by by rewrite H.
  induction xs as [|x xs IH]; intros acc; simpl; [by rewrite app_nil_r|].
  rewrite IH. case_bool_decide; [done|].
  rewrite <- app_assoc. simpl. do 2 f_equal. apply unique_from_ext.
  intros y. rewrite elem_of_app, list_elem_of_singleton, elem_of_cons. tauto.
Qed.

(** The extreme value of a numeric column: the value picked is one of the
    numbers of the column and is in relation [R] with all of them; there
    is none exactly when the column holds no number. *)
Section extremum.
Context (pick : Qc → Qc → Qc) (R : Qc → Qc → Prop).
Hypothesis pick_cases : ∀ m q, pick m q = m ∨ pick m q = q.
Hypothesis pick_l : ∀ m q, R (pick m q) m.
Hypothesis pick_r : ∀ m q, R (pick m q) q.
Hypothesis R_refl : ∀ m, R m m.
Hypothesis R_trans : ∀ a b c, R a b → R b c → R a c.

Lemma extremum_fold (vs : list scalar) (a : scalar) :
  Forall (λ v, is_numeric v = true) vs → is_numeric a = true →
  ∃ b, fold_left (λ acc x,
         a ← acc;
         match x, a with
         | Num q, Num m => Ok (Num (pick m q))
         | Num q, _ => Ok (Num q)
         | NaN, _ | PNone, _ => Ok a
         | Str _, _ => Raise TypeError
         end) vs (Ok a) = Ok b ∧ extreme_of R a vs b.
Proof.
  intros Hvs. revert a. induction Hvs as [|x vs Hx Hvs IH]; intros a Ha; simpl.
  - exists a. split; [done|]. destruct a as [|m| |]; try done; simpl.
    + split; [by left|]. intros q [[= ->]|?%elem_of_nil]; done.
    + split; [done|]. intros q ?%elem_of_nil. done.
  - destruct x as [|q| |]; try done; destruct a as [|m| |]; try done; simpl.
    + destruct (IH (Num (pick m q)) eq_refl) as (b & -> & Hb). exists b. split; [done|].
      destruct b as [|m'| |]; simpl in *; try done; [|by destruct Hb].
      destruct Hb as [Hmem Hall]. split.
      * destruct Hmem as [[= ->]|?]; [|right; by right].
        destruct (pick_cases m q) as [-> | ->]; [by left|right; by left].
      * intros q' [[= ->]|[[= ->]|?]%elem_of_cons].
        -- eapply R_trans; [apply Hall; by left|apply pick_l].
        -- eapply R_trans; [apply Hall; by left|apply pick_r].
        -- apply Hall. by right.
    + destruct (IH (Num q) eq_refl) as (b & -> & Hb). exists b. split; [done|].
      destruct b as [|m'| |]; simpl in *; try done; [|by destruct Hb].
      destruct Hb as [Hmem Hall]. split.
      * right. destruct Hmem as [[= ->]|?]; [by left|by right].
      * intros q' [?|[[= ->]|?]%elem_of_cons]; [done|..]; apply Hall; [by left|by right].
    + destruct (IH (Num m) eq_refl) as (b & -> & Hb). exists b. split; [done|].
      destruct b as [|m'| |]; simpl in *; try done; [|by destruct Hb].
      destruct Hb as [Hmem Hall]. split.
      * destruct Hmem as [?|?]; [by left|right; by right].
      * intros q' [?|[?|?]%elem_of_cons]; [|done|]; apply Hall; [by left|by right].
    + destruct (IH NaN eq_refl) as (b & -> & Hb). exists b. split; [done|].
      destruct b as [|m'| |]; simpl in *; try done.
      * destruct Hb as [Hmem Hall]. split.
        -- destruct Hmem as [?|?]; [done|right; by right].
        -- intros q' [?|[?|?]%elem_of_cons]; try done. apply Hall. by right.
      * destruct Hb as [_ Hnone]. split; [done|].
        intros q' [?|?]%elem_of_cons; [done|]. by apply (Hnone q').
Qed.
End extremum.

Lemma payload_column_numeric ds :
  well_formed ds = true →
  Forall (λ v, is_numeric v = true) (pd.cell ds "Payload Mass (kg)" <$> pd.rows ds).
Proof.
  intros Hwf. apply Forall_forall. intros v (r & -> & Hr)%list_elem_of_fmap.
  by apply well_formed_payload.
Qed.

Lemma min_payload_spec ds :
  well_formed ds = true →
  ∃ b, pd.min {| pd.name := "Payload Mass (kg)";
                 pd.values := pd.cell ds "Payload Mass (kg)" <$> pd.rows ds |} = Ok b
       ∧ extreme_of Qcle NaN (payload_of ds <$> pd.rows ds) b.
Proof.
  intros Hwf. unfold pd.min, pd.extremum. cbn [pd.values].
  apply extremum_fold; [| | |apply Qcle_refl|apply Qcle_trans| |done].
  - intros m q. by destruct (qc_leb q m); [right|left].
  - intros m q. destruct (qc_leb q m) eqn:E; [by apply qc_leb_le|apply Qcle_refl].
  - intros m q. destruct (qc_leb q m) eqn:E; [apply Qcle_refl|].
    apply Qclt_le_weak, Qcnot_le_lt. intros ?%qc_leb_le. congruence.
  - by apply payload_column_numeric.
Qed.

Lemma max_payload_spec ds :
  well_formed ds = true →
  ∃ b, pd.max {| pd.name := "Payload Mass (kg)";
                 pd.values := pd.cell ds "Payload Mass (kg)" <$> pd.rows ds |} = Ok b
       ∧ extreme_of (λ m q, (q <= m)%Qc) NaN (payload_of ds <$> pd.rows ds) b.
Proof.
  intros Hwf. unfold pd.max, pd.extremum. cbn [pd.values].
  apply extremum_fold; [| | |intros; apply Qcle_refl|intros a b c ??; by eapply Qcle_trans| |done].
  - intros m q. by destruct (qc_leb m q); [right|left].
  - intros m q. destruct (qc_leb m q) eqn:E; [by apply qc_leb_le|apply Qcle_refl].
  - intros m q. destruct (qc_leb m q) eqn:E; [apply Qcle_refl|].
    apply Qclt_le_weak, Qcnot_le_lt. intros ?%qc_leb_le. congruence.
  - by apply payload_column_numeric.
Qed.

Lemma run_build_layout st l ds bmin bmax :
  spacex_df st = Some l → objs st !! l = Some ds →
  well_formed ds = true →
  pd.min {| pd.name := "Payload Mass (kg)";
            pd.values := pd.cell ds "Payload Mass (kg)" <$> pd.rows ds |} = Ok bmin →
  pd.max {| pd.name := "Payload Mass (kg)";
            pd.values := pd.cell ds "Payload Mass (kg)" <$> pd.rows ds |} = Ok bmax →
  ∃ lay, (build_layout st).1 = Ok lay
    ∧ dcc.options (site_dropdown lay)
      = (Str "All Sites", Str "ALL")
        :: ((λ site, (site, site)) <$> first_seen (site_of ds <$> pd.rows ds))
    ∧ dcc.dd_value (site_dropdown lay) = Str "ALL"
    ∧ dcc.min (payload_slider lay) = 0%Z
    ∧ dcc.max (payload_slider lay) = 10000%Z
    ∧ dcc.step (payload_slider lay) = 1000%Z
    ∧ dcc.marks (payload_slider lay)
      = [(0, "0"); (1000, "1000"); (2000, "2000"); (3000, "3000"); (4000, "4000");
         (5000, "5000"); (6000, "6000"); (7000, "7000"); (8000, "8000"); (9000, "9000");
         (10000, "10000")]%Z
    ∧ dcc.rs_value (payload_slider lay)
      = [if notna bmin then bmin else Num (qz 0); if notna bmax then bmax else Num (qz 10000)].
Proof.
  intros Hl Hds Hwf Hmin Hmax.
  pose proof (well_formed_columns ds "Payload Mass (kg)" Hwf ltac:(by left)) as Hp.
  pose proof (well_formed_columns ds "Launch Site" Hwf ltac:(right; by left)) as Hs.
  unfold build_layout. repeat run_step. rewrite Hmax. repeat run_step. rewrite Hmin.
  repeat run_step. eexists. split; [reflexivity|]. cbn.
  rewrite unique_first_seen. split_and!; try done.
Qed.

Lemma run_load_dataset (fs : filesystem) (st : state) :
  ∃ st', load_dataset fs st = (Ok (), st')
         ∧ spacex_df st' = Some (length (objs st))
         ∧ objs st' = objs st ++ [dataset_of fs].
Proof.
  unfold load_dataset, try_except_FileNotFoundError, read_csv, dataset_of.
  destruct (fs "spacex_launch_dash.csv") as [df|]; eexists; (split; [reflexivity|done]).
Qed.

(** C8: the layout built at startup offers "ALL" followed by the distinct
    launch sites of the dataset in first-seen order, with "ALL" selected;
    its payload slider runs from 0 to 10000 in steps of 1000 with a mark
    every 1000 whatever the dataset, and starts on the interval from the
    least to the greatest payload of the dataset, or on [0, 10000] when
    the dataset has no payload to take them from. *)
Theorem startup_layout_controls (fs : filesystem) (st : state) :
  well_formed (dataset_of fs) = true →
  ∃ lay,
    (startup fs st).1 = Ok lay
    ∧ (dcc.options (site_dropdown lay)).*2
      = Str "ALL" :: first_seen (site_of (dataset_of fs) <$> pd.rows (dataset_of fs))
    ∧ dcc.dd_value (site_dropdown lay) = Str "ALL"
    ∧ dcc.min (payload_slider lay) = 0%Z
    ∧ dcc.max (payload_slider lay) = 10000%Z
    ∧ dcc.step (payload_slider lay) = 1000%Z
    ∧ dcc.marks (payload_slider lay)
      = [(0, "0"); (1000, "1000"); (2000, "2000"); (3000, "3000"); (4000, "4000");
         (5000, "5000"); (6000, "6000"); (7000, "7000"); (8000, "8000"); (9000, "9000");
         (10000, "10000")]%Z
    ∧ ∃ vlo vhi,
        dcc.rs_value (payload_slider lay) = [vlo; vhi]
        ∧ ((∀ q, Num q ∉ payload_of (dataset_of fs) <$> pd.rows (dataset_of fs)) →
           vlo = Num (qz 0) ∧ vhi = Num (qz 10000))
        ∧ (∀ q0, Num q0 ∈ payload_of (dataset_of fs) <$> pd.rows (dataset_of fs) →
           ∃ lo hi,
             vlo = Num lo ∧ vhi = Num hi
             ∧ Num lo ∈ payload_of (dataset_of fs) <$> pd.rows (dataset_of fs)
             ∧ Num hi ∈ payload_of (dataset_of fs) <$> pd.rows (dataset_of fs)
             ∧ ∀ q, Num q ∈ payload_of (dataset_of fs) <$> pd.rows (dataset_of fs) →
                    (lo <= q)%Qc ∧ (q <= hi)%Qc).
Proof.
  intros Hwf. destruct (run_load_dataset fs st) as (st' & Hload & Hl & Hobjs).
  destruct (min_payload_spec _ Hwf) as (bmin & Hmin & Hbmin).
  destruct (max_payload_spec _ Hwf) as (bmax & Hmax & Hbmax).
  assert (objs st' !! length (objs st) = Some (dataset_of fs)) as Hds
    by (rewrite Hobjs; apply lookup_snoc).
  destruct (run_build_layout st' _ _ bmin bmax Hl Hds Hwf Hmin Hmax)
    as (lay & Hlay & Hopts & Hval & H0 & H1 & H2 & Hmarks & Hrs).
  exists lay. split.
  { unfold startup, mbind, M_bind. by rewrite Hload. }
  split_and!; try done.
  - rewrite Hopts. csimpl. f_equal. rewrite <- list_fmap_compose. apply list_fmap_id.
  - eexists _, _. split; [exact Hrs|].
    destruct bmin as [|lo| |], bmax as [|hi| |]; simpl in *; try done.
    + destruct Hbmin as [[?|Hlo] Hmin']; [done|].
      destruct Hbmax as [[?|Hhi] Hmax']; [done|]. split.
      * intros Hnone. by destruct (Hnone lo).
      * intros q0 _. exists lo, hi. split_and!; try done.
        intros q Hq. split; [apply Hmin'|apply Hmax']; by right.
    + destruct Hbmin as [[?|Hlo] _]; [done|]. destruct Hbmax as [_ Hnone].
      by destruct (Hnone lo).
    + destruct Hbmax as [[?|Hhi] _]; [done|]. destruct Hbmin as [_ Hnone].
      by destruct (Hnone hi).
    + destruct Hbmin as [_ Hnone]. split; [done|]. intros q0 Hq0. by destruct (Hnone q0).
Qed.

Lemma startup_layout_controls_witness :
  ∃ lay,
    (startup (λ _, Some ex_ds) init_state).1 = Ok lay
    ∧ (dcc.options (site_dropdown lay)).*2
      = Str "ALL" :: first_seen (site_of (dataset_of (λ _, Some ex_ds))
                                   <$> pd.rows (dataset_of (λ _, Some ex_ds)))
    ∧ dcc.dd_value (site_dropdown lay) = Str "ALL"
    ∧ dcc.min (payload_slider lay) = 0%Z
    ∧ dcc.max (payload_slider lay) = 10000%Z
    ∧ dcc.step (payload_slider lay) = 1000%Z
    ∧ dcc.marks (payload_slider lay)
      = [(0, "0"); (1000, "1000"); (2000, "2000"); (3000, "3000"); (4000, "4000");
         (5000, "5000"); (6000, "6000"); (7000, "7000"); (8000, "8000"); (9000, "9000");
         (10000, "10000")]%Z
    ∧ ∃ vlo vhi,
        dcc.rs_value (payload_slider lay) = [vlo; vhi]
        ∧ ((∀ q, Num q ∉ payload_of (dataset_of (λ _, Some ex_ds))
                           <$> pd.rows (dataset_of (λ _, Some ex_ds))) →
           vlo = Num (qz 0) ∧ vhi = Num (qz 10000))
        ∧ (∀ q0, Num q0 ∈ payload_of (dataset_of (λ _, Some ex_ds))
                            <$> pd.rows (dataset_of (λ _, Some ex_ds)) →
           ∃ lo hi,
             vlo = Num lo ∧ vhi = Num hi
             ∧ Num lo ∈ payload_of (dataset_of (λ _, Some ex_ds))
                          <$> pd.rows (dataset_of (λ _, Some ex_ds))
             ∧ Num hi ∈ payload_of (dataset_of (λ _, Some ex_ds))
                          <$> pd.rows (dataset_of (λ _, Some ex_ds))
             ∧ ∀ q, Num q ∈ payload_of (dataset_of (λ _, Some ex_ds))
                              <$> pd.rows (dataset_of (λ _, Some ex_ds)) →
                    (lo <= q)%Qc ∧ (q <= hi)%Qc).
Proof.
  apply (startup_layout_controls (λ _, Some ex_ds) init_state). reflexivity.
Defined.

(** ** The dataset is never written to *)

Section preserves.
Context (st0 : state).

Lemma preserves_bind {A B} (Q : A → Prop) (R : B → Prop) (m : M A) (k : A → M B) :
  preserves st0 Q m → (∀ a, Q a → preserves st0 R (k a)) → preserves st0 R (m ≫= k).
Proof.
  intros Hm Hk st Hst. unfold mbind, M_bind.
  destruct (Hm st Hst) as [Hst' HQ]. destruct (m st) as [[a|e] st']; simpl in *.
  - by apply Hk; [apply HQ|].
  - done.
Qed.

Lemma preserves_pure {A} (r : result A) : preserves st0 (λ _, True) (λ st, (r, st)).
Proof. by intros st Hst. Qed.

Lemma preserves_ret {A} (a : A) : preserves st0 (λ _, True) (mret a).
Proof. apply preserves_pure. Qed.

Lemma preserves_lift {A} (r : result A) : preserves st0 (λ _, True) (lift r).
Proof. apply preserves_pure. Qed.

Lemma preserves_deref l : preserves st0 (λ _, True) (deref l).
Proof. intros st Hst. unfold deref. by destruct (objs st !! l). Qed.

Lemma preserves_global : preserves st0 (λ _, True) global_spacex_df.
Proof. intros st Hst. unfold global_spacex_df. by destruct (spacex_df st). Qed.

Lemma preserves_alloc df : preserves st0 (fresh st0) (alloc df).
Proof.
  intros st [Hg [new Hobjs]]. unfold alloc, only_allocates, fresh. simpl. split_and!.
  - done.
  - exists (new ++ [df]). by rewrite Hobjs, app_assoc.
  - intros a [= <-]. rewrite Hobjs, length_app. lia.
Qed.

Lemma preserves_store l df : fresh st0 l → preserves st0 (λ _, True) (store l df).
Proof.
  intros Hl st [Hg [new Hobjs]]. unfold store, only_allocates. simpl. split_and!; try done.
  exists (<[l - length (objs st0) := df]> new).
  by rewrite Hobjs, insert_app_r_alt.
Qed.

Lemma preserves_getitem l c : preserves st0 (λ _, True) (getitem l c).
Proof.
  eapply preserves_bind; [apply preserves_deref|]. intros df _. apply preserves_lift.
Qed.

Lemma preserves_getitem_mask l mask : preserves st0 (fresh st0) (getitem_mask l mask).
Proof.
  eapply preserves_bind; [apply preserves_deref|]. intros df _.
  eapply preserves_bind; [apply preserves_lift|]. intros df' _. apply preserves_alloc.
Qed.

Lemma preserves_copy l : preserves st0 (fresh st0) (copy l).
Proof.
  eapply preserves_bind; [apply preserves_deref|]. intros df _. apply preserves_alloc.
Qed.

Lemma preserves_columns l : preserves st0 (λ _, True) (columns l).
Proof.
  eapply preserves_bind; [apply preserves_deref|]. intros df _. apply preserves_ret.
Qed.

Lemma preserves_set_columns l names :
  fresh st0 l → preserves st0 (λ _, True) (set_columns l names).
Proof.
  intros Hl. eapply preserves_bind; [apply preserves_deref|]. intros df _.
  eapply preserves_bind; [apply preserves_lift|]. intros df' _. by apply preserves_store.
Qed.

Lemma preserves_px_pie l values names title :
  preserves st0 (λ _, True) (px_pie l values names title).
Proof.
  eapply preserves_bind; [apply preserves_deref|]. intros df _. apply preserves_lift.
Qed.

Lemma preserves_px_scatter l x y color title :
  preserves st0 (λ _, True) (px_scatter l x y color title).
Proof.
  eapply preserves_bind; [apply preserves_deref|]. intros df _. apply preserves_lift.
Qed.

Lemma preserves_series_ge s v : preserves st0 (λ _, True) (series_ge s v).
Proof. destruct v; apply preserves_lift. Qed.

Lemma preserves_series_le s v : preserves st0 (λ _, True) (series_le s v).
Proof. destruct v; apply preserves_lift. Qed.

Lemma preserves_get_pie_chart entered_site :
  preserves st0 (λ _, True) (get_pie_chart entered_site).
Proof.
  unfold get_pie_chart.
  eapply preserves_bind; [apply preserves_global|]. intros filtered_df _.
  destruct (String.eqb entered_site "ALL").
  - eapply preserves_bind; [apply preserves_getitem|]. intros cls _.
    eapply preserves_bind; [apply preserves_getitem_mask|]. intros df _.
    apply preserves_px_pie.
  - eapply preserves_bind; [apply preserves_getitem|]. intros sites _.
    eapply preserves_bind; [apply preserves_getitem_mask|]. intros df _.
    eapply preserves_bind; [apply preserves_getitem|]. intros cls _.
    eapply preserves_bind; [apply preserves_alloc|]. intros status_counts Hfresh.
    eapply preserves_bind; [by apply preserves_set_columns|]. intros _ _.
    apply preserves_px_pie.
Qed.

Lemma preserves_get_scatter_chart entered_site payload_range :
  preserves st0 (λ _, True) (get_scatter_chart entered_site payload_range).
Proof.
  unfold get_scatter_chart.
  eapply preserves_bind; [apply preserves_lift|]. intros [low high] _.
  eapply preserves_bind; [apply preserves_global|]. intros df _.
  eapply preserves_bind; [apply preserves_columns|]. intros cols _.
  destruct (negb (bool_decide (_ ∈ cols))); [apply preserves_ret|].
  eapply preserves_bind.
  { destruct (negb (isinstance_number low && isinstance_number high)).
    - eapply preserves_bind; [apply preserves_global|]. intros df0 _.
      apply preserves_copy.
    - eapply preserves_bind; [apply preserves_global|]. intros df0 _.
      eapply preserves_bind; [apply preserves_global|]. intros df1 _.
      eapply preserves_bind; [apply preserves_getitem|]. intros p1 _.
      eapply preserves_bind; [apply preserves_series_ge|]. intros m1 _.
      eapply preserves_bind; [apply preserves_global|]. intros df2 _.
      eapply preserves_bind; [apply preserves_getitem|]. intros p2 _.
      eapply preserves_bind; [apply preserves_series_le|]. intros m2 _.
      apply preserves_getitem_mask. }
  intros current_filtered_df _.
  destruct (String.eqb entered_site "ALL"); [apply preserves_px_scatter|].
  eapply preserves_bind; [apply preserves_getitem|]. intros sites _.
  eapply preserves_bind; [apply preserves_getitem_mask|]. intros site_filtered_df _.
  apply preserves_px_scatter.
Qed.
End preserves.

Lemma only_allocates_refl st : only_allocates st st.
Proof. split; [done|]. exists []. by rewrite app_nil_r. Qed.

Lemma only_allocates_loaded st st' ds : only_allocates st st' → loaded st ds → loaded st' ds.
Proof.
  intros [Hg [new Hobjs]] (l & Hl & Hds). exists l. split; [congruence|].
  rewrite Hobjs. by apply lookup_app_l_Some.
Qed.

(** C9: the dataset is never mutated after load.  Whatever the
    arguments, and whether it returns or raises, a run of the pie
    callback or of the scatter callback leaves [spacex_df] bound to the
    same object and every object that existed before the call, the
    dataset among them, with the contents it had: the callbacks only
    allocate new frames. *)
Theorem callbacks_leave_dataset_unchanged (st : state) (entered_site : string)
    (payload_range : pyval) :
  only_allocates st (get_pie_chart entered_site st).2
  ∧ only_allocates st (get_scatter_chart entered_site payload_range st).2
  ∧ ∀ ds, loaded st ds →
          loaded (get_pie_chart entered_site st).2 ds
          ∧ loaded (get_scatter_chart entered_site payload_range st).2 ds.
Proof.
  pose proof (preserves_get_pie_chart st entered_site st (only_allocates_refl st)) as [Hp _].
  pose proof (preserves_get_scatter_chart st entered_site payload_range st
                (only_allocates_refl st)) as [Hs _].
  split_and!; [done..|]. intros ds Hds. split; by eapply only_allocates_loaded.
Qed.

Lemma callbacks_leave_dataset_unchanged_witness :
  loaded (get_pie_chart "A" ex_st).2 ex_ds
  ∧ loaded (get_scatter_chart "A" (PyList [Atom (Num (qz 0)); Atom (Num (qz 1000))]) ex_st).2
           ex_ds.
Proof.
  apply (proj2 (proj2 (callbacks_leave_dataset_unchanged ex_st "A"
                         (PyList [Atom (Num (qz 0)); Atom (Num (qz 1000))]))) ex_ds).
  exists 0. split; reflexivity.
Defined.

(** ** The worked example of the specification *)

Example example_pie_all :
  px.slices <$> (get_pie_chart "ALL" ex_st).1 = Ok [(Str "A", qz 1); (Str "B", qz 1)].
Proof. vm_compute. reflexivity. Qed.

Example example_pie_site :
  px.slices <$> (get_pie_chart "A" ex_st).1 = Ok [(Str "Success", qz 1); (Str "Failure", qz 1)].
Proof. vm_compute. reflexivity. Qed.

Example example_scatter :
  px.points <$> (get_scatter_chart "ALL" (PyList [Atom (Num (qz 0)); Atom (Num (qz 1000))]) ex_st).1
  = Ok [ {| px.x := Num (qz 500); px.y := Num (qz 1); px.color := Str "B1" |};
         {| px.x := Num (qz 500); px.y := Num (qz 0); px.color := Str "B2" |} ].
Proof. vm_compute. reflexivity. Qed.

(** A payload equal to a bound is kept; a missing bound keeps nothing. *)
Example example_scatter_bounds :
  px.points <$> (get_scatter_chart "B" (PyList [Atom (Num (qz 9000)); Atom (Num (qz 9000))]) ex_st).1
  = Ok [ {| px.x := Num (qz 9000); px.y := Num (qz 1); px.color := Str "B1" |} ]
  ∧ px.points <$> (get_scatter_chart "ALL" (PyList [Atom NaN; Atom (Num (qz 9000))]) ex_st).1
    = Ok [].
Proof. split; vm_compute; reflexivity. Qed.

(** * Further properties of the program *)

(** ** Startup *)

(** X1: the loader never raises on a missing file and never touches an
    object that exists: it binds [spacex_df] to a new object holding the
    table of the file, or the placeholder, and prints the diagnostic
    exactly when the file is missing. *)
Theorem loader_binds_fresh_dataset (fs : filesystem) (st : state) :
  ∃ st',
    load_dataset fs st = (Ok (), st')
    ∧ objs st' = objs st ++ [dataset_of fs]
    ∧ spacex_df st' = Some (length (objs st))
    ∧ stdout st'
      = stdout st ++ match fs "spacex_launch_dash.csv" with
                     | Some _ => []
                     | None => ["Error: 'spacex_launch_dash.csv' not found. Please ensure the file is in the correct directory."]
                     end.
Proof.
  unfold load_dataset, try_except_FileNotFoundError, read_csv, dataset_of.
  destruct (fs "spacex_launch_dash.csv") as [df|]; eexists; (split; [reflexivity|]);
    simpl; by rewrite ?app_nil_r.
Qed.

Lemma readonly_bind {A B} (m : M A) (k : A → M B) :
  readonly m → (∀ a, readonly (k a)) → readonly (m ≫= k).
Proof.
  intros Hm Hk st. unfold mbind, M_bind. specialize (Hm st).
  destruct (m st) as [[a|e] st']; simpl in *; subst; [apply Hk|done].
Qed.

Lemma readonly_pure {A} (r : result A) : readonly (λ st, (r, st)).
Proof. by intros st. Qed.

Lemma readonly_global : readonly global_spacex_df.
Proof. intros st. unfold global_spacex_df. by destruct (spacex_df st). Qed.

Lemma readonly_getitem l c : readonly (getitem l c).
Proof.
  apply readonly_bind; [|intros df; apply readonly_pure].
  intros st. unfold deref. by destruct (objs st !! l).
Qed.

Lemma readonly_build_layout : readonly build_layout.
Proof.
  unfold build_layout.
  repeat first [ apply readonly_bind; [first [apply readonly_global | apply readonly_getitem
                                             | apply (readonly_pure (A:=scalar))]|intros ?]
               | apply (readonly_pure (A:=Layout)) ].
Qed.

(** X2: building the layout only reads the dataset: returning or raising,
    it leaves objects, output and the binding of [spacex_df] as it found
    them, so the state after startup is the state the loader left. *)
Theorem layout_building_changes_nothing (fs : filesystem) (st : state) :
  (build_layout st).2 = st ∧ (startup fs st).2 = (load_dataset fs st).2.
Proof.
  split; [apply readonly_build_layout|].
  unfold startup, mbind, M_bind.
  destruct (load_dataset fs st) as [[[]|e] st'] eqn:Hload; simpl; [|done].
  apply readonly_build_layout.
Qed.

Lemma startup_after_load (fs : filesystem) (st : state) :
  ∃ st', load_dataset fs st = (Ok (), st')
         ∧ startup fs st = build_layout st'
         ∧ spacex_df st' = Some (length (objs st))
         ∧ objs st' !! length (objs st) = Some (dataset_of fs).
Proof.
  destruct (run_load_dataset fs st) as (st' & Hload & Hl & Hobjs).
  exists st'. split_and!; [done| |done|rewrite Hobjs; apply lookup_snoc].
  unfold startup, mbind, M_bind. by rewrite Hload.
Qed.

Lemma pie_returns st l ds site :
  spacex_df st = Some l → objs st !! l = Some ds →
  pd.has_column ds "class" = true → pd.has_column ds "Launch Site" = true →
  ∃ fig, (get_pie_chart site st).1 = Ok fig.
Proof.
  intros Hl Hds Hc Hs. destruct (String.eqb_spec site "ALL") as [->|Hne]; eexists.
  - by eapply run_pie_all.
  - eapply run_pie_site; try done. by apply String.eqb_neq.
Qed.

(** X3: with the file missing, startup still returns a layout, built
    from the placeholder: the site selector offers "ALL" and "Default"
    and the slider starts on [0, 0]; afterwards the pie callback returns
    a chart for every site, and the scatter callback for every site and
    every two-element interval. *)
Theorem startup_without_file_still_serves (fs : filesystem) (st : state) :
  fs "spacex_launch_dash.csv" = None →
  ∃ lay st',
    startup fs st = (Ok lay, st')
    ∧ loaded st' placeholder
    ∧ dcc.options (site_dropdown lay)
      = [(Str "All Sites", Str "ALL"); (Str "Default", Str "Default")]
    ∧ dcc.rs_value (payload_slider lay) = [Num (qz 0); Num (qz 0)]
    ∧ (∀ site, ∃ fig, (get_pie_chart site st').1 = Ok fig)
    ∧ (∀ site low high, ∃ fig, (get_scatter_chart site (PyList [low; high]) st').1 = Ok fig).
Proof.
  intros Hfs. destruct (startup_after_load fs st) as (st' & Hload & Hrun & Hl & Hds).
  unfold dataset_of in Hds. rewrite Hfs in Hds. simpl in Hds.
  destruct (run_build_layout st' _ placeholder (Num (qz 0)) (Num (qz 0)) Hl Hds)
    as (lay & Hlay & Hopts & _ & _ & _ & _ & _ & Hrs); [done..|].
  exists lay, st'. split_and!.
  - rewrite Hrun. pose proof (readonly_build_layout st') as Hst.
    destruct (build_layout st') as [r st'']. simpl in *. by subst.
  - by eexists.
  - by rewrite Hopts.
  - by rewrite Hrs.
  - intros site. by eapply pie_returns.
  - intros site low high. eexists. by eapply run_scatter.
Qed.

Lemma startup_without_file_still_serves_witness :
  ∃ lay st',
    startup (λ _, None) init_state = (Ok lay, st')
    ∧ loaded st' placeholder
    ∧ dcc.options (site_dropdown lay)
      = [(Str "All Sites", Str "ALL"); (Str "Default", Str "Default")]
    ∧ dcc.rs_value (payload_slider lay) = [Num (qz 0); Num (qz 0)]
    ∧ (∀ site, ∃ fig, (get_pie_chart site st').1 = Ok fig)
    ∧ (∀ site low high, ∃ fig, (get_scatter_chart site (PyList [low; high]) st').1 = Ok fig).
Proof.
  apply (startup_without_file_still_serves (λ _, None) init_state). reflexivity.
Defined.

Lemma build_layout_no_payload st l ds :
  spacex_df st = Some l → objs st !! l = Some ds →
  pd.has_column ds "Payload Mass (kg)" = false →
  build_layout st = (Raise (KeyError "Payload Mass (kg)"), st).
Proof. intros Hl Hds Hp. unfold build_layout. by repeat run_step. Qed.

Lemma build_layout_ok_columns st l ds lay :
  spacex_df st = Some l → objs st !! l = Some ds →
  (build_layout st).1 = Ok lay →
  pd.has_column ds "Payload Mass (kg)" = true ∧ pd.has_column ds "Launch Site" = true.
Proof.
  intros Hl Hds. destruct (pd.has_column ds "Payload Mass (kg)") eqn:Hp.
  - destruct (pd.has_column ds "Launch Site") eqn:Hs; [done|].
    unfold build_layout. repeat run_step.
    destruct (pd.max _); [|done]. repeat run_step.
    destruct (pd.min _); [|done]. by repeat run_step.
  - by rewrite (build_layout_no_payload st l ds).
Qed.

(** X4: startup reads the payload-mass and launch-site columns while
    building the layout.  It raises KeyError when the table of the file
    has no payload-mass column, and whenever it returns a layout the
    dataset holds both columns. *)
Theorem startup_needs_its_columns (fs : filesystem) (st : state) :
  (pd.has_column (dataset_of fs) "Payload Mass (kg)" = false →
   startup fs st = (Raise (KeyError "Payload Mass (kg)"), (load_dataset fs st).2))
  ∧ (∀ lay, (startup fs st).1 = Ok lay →
            pd.has_column (dataset_of fs) "Payload Mass (kg)" = true
            ∧ pd.has_column (dataset_of fs) "Launch Site" = true).
Proof.
  destruct (startup_after_load fs st) as (st' & Hload & Hrun & Hl & Hds). split.
  - intros Hp. by rewrite Hrun, (build_layout_no_payload st' _ _ Hl Hds Hp), Hload.
  - intros lay. rewrite Hrun. by eapply build_layout_ok_columns.
Qed.

Lemma startup_needs_its_columns_witness :
  startup (λ _, Some no_payload_ds) init_state
  = (Raise (KeyError "Payload Mass (kg)"),
     (load_dataset (λ _, Some no_payload_ds) init_state).2).
Proof.
  apply (proj1 (startup_needs_its_columns (λ _, Some no_payload_ds) init_state)).
  reflexivity.
Defined.

(** ** The scatter callback beyond well-formed datasets *)

Lemma preserves_global_loaded st0 l0 :
  spacex_df st0 = Some l0 → preserves st0 (λ l, l = l0) global_spacex_df.
Proof.
  intros Hl st [Hg Hobjs]. unfold global_spacex_df. rewrite Hg, Hl. simpl.
  split; [done|]. by intros l [= <-].
Qed.

Lemma preserves_columns_loaded st0 l0 ds :
  objs st0 !! l0 = Some ds → preserves st0 (λ cols, cols = pd.columns ds) (columns l0).
Proof.
  intros Hds st [Hg [new Hobjs]]. unfold columns, mbind, M_bind, deref.
  rewrite Hobjs, (lookup_app_l_Some _ _ _ _ Hds). simpl.
  split; [split; [done|by exists new]|]. by intros cols [= <-].
Qed.

Lemma preserves_px_scatter_title st0 l x y c t :
  preserves st0 (λ fig, px.title fig = t) (px_scatter l x y c t).
Proof.
  intros st Hst. unfold px_scatter, mbind, M_bind, deref, lift.
  destruct (objs st !! l) as [df|]; simpl; [|done]. split; [done|].
  unfold px.scatter, mbind, result_bind.
  destruct (px.column_arg df x); [|done]. destruct (px.column_arg df y); [|done].
  destruct (px.column_arg df c); [|done]. by intros fig [= <-].
Qed.

Lemma scatter_chart_title st ds site range fig :
  loaded st ds →
  pd.has_column ds "Payload Mass (kg)" = true →
  (get_scatter_chart site range st).1 = Ok fig →
  px.title fig = scatter_title site.
Proof.
  intros (l0 & Hl & Hds) Hp.
  enough (preserves st (λ fig, px.title fig = scatter_title site)
            (get_scatter_chart site range)) as H
    by (intros Hfig; by apply (H st (only_allocates_refl st))).
  unfold get_scatter_chart, scatter_title.
  eapply preserves_bind; [apply preserves_lift|]. intros [low high] _.
  eapply preserves_bind; [by apply preserves_global_loaded|]. intros df ->.
  eapply preserves_bind; [by apply preserves_columns_loaded|]. intros cols ->.
  rewrite has_column_elem_of, Hp. cbn [negb].
  eapply preserves_bind.
  { destruct (negb (isinstance_number low && isinstance_number high)).
    - eapply preserves_bind; [apply preserves_global|]. intros df0 _.
      apply preserves_copy.
    - eapply preserves_bind; [apply preserves_global|]. intros df0 _.
      eapply preserves_bind; [apply preserves_global|]. intros df1 _.
      eapply preserves_bind; [apply preserves_getitem|]. intros p1 _.
      eapply preserves_bind; [apply preserves_series_ge|]. intros m1 _.
      eapply preserves_bind; [apply preserves_global|]. intros df2 _.
      eapply preserves_bind; [apply preserves_getitem|]. intros p2 _.
      eapply preserves_bind; [apply preserves_series_le|]. intros m2 _.
      apply preserves_getitem_mask. }
  intros current_filtered_df _.
  destruct (String.eqb site "ALL"); [apply preserves_px_scatter_title|].
  eapply preserves_bind; [apply preserves_getitem|]. intros sites _.
  eapply preserves_bind; [apply preserves_getitem_mask|]. intros site_filtered_df _.
  apply preserves_px_scatter_title.
Qed.

Lemma scatter_title_not_missing site :
  scatter_title site ≠ "Payload Mass (kg) column missing".
Proof. unfold scatter_title. destruct (String.eqb site "ALL"); simpl; discriminate. Qed.

(** X5: whenever the scatter callback returns a chart over a dataset
    that has the payload-mass column, the chart is titled "Payload vs.
    Launch Outcome for All Sites" for "ALL" and "Payload vs. Launch
    Outcome for site S" for a site S, whatever else the dataset holds;
    it is never the "column missing" chart. *)
Theorem scatter_title_names_selection (st : state) (ds : pd.DataFrame) (site : string)
    (range : pyval) (fig : px.Figure) :
  loaded st ds →
  pd.has_column ds "Payload Mass (kg)" = true →
  (get_scatter_chart site range st).1 = Ok fig →
  px.title fig = (if String.eqb site "ALL" then "Payload vs. Launch Outcome for All Sites"
                  else "Payload vs. Launch Outcome for site " +:+ site)
  ∧ fig ≠ px.scatter_empty "Payload Mass (kg) column missing".
Proof.
  intros Hds Hp Hfig. pose proof (scatter_chart_title _ _ _ _ _ Hds Hp Hfig) as Ht.
  split; [done|]. intros ->. by apply (scatter_title_not_missing site).
Qed.

Lemma scatter_title_names_selection_witness :
  px.title (px.Scatter [ {| px.x := Num (qz 9000); px.y := Num (qz 1); px.color := Str "B1" |} ]
                       "Payload vs. Launch Outcome for site B")
  = (if String.eqb "B" "ALL" then "Payload vs. Launch Outcome for All Sites"
     else "Payload vs. Launch Outcome for site " +:+ "B")
  ∧ px.Scatter [ {| px.x := Num (qz 9000); px.y := Num (qz 1); px.color := Str "B1" |} ]
               "Payload vs. Launch Outcome for site B"
    ≠ px.scatter_empty "Payload Mass (kg) column missing".
Proof.
  apply (scatter_title_names_selection ex_st ex_ds "B"
           (PyList [Atom (Num (qz 9000)); Atom (Num (qz 9000))])).
  - exists 0. split; reflexivity.
  - reflexivity.
  - reflexivity.
Defined.

(** X6: once startup has returned a layout, the missing-column guard of
    the scatter callback cannot fire: in every state where [spacex_df]
    is still bound to the dataset startup loaded, no site and no interval
    argument makes the callback return the "column missing" chart. *)
Theorem scatter_guard_dead_after_startup (fs : filesystem) (st : state) (lay : Layout) :
  (startup fs st).1 = Ok lay →
  loaded (startup fs st).2 (dataset_of fs)
  ∧ ∀ st' site range,
      loaded st' (dataset_of fs) →
      (get_scatter_chart site range st').1
      ≠ Ok (px.scatter_empty "Payload Mass (kg) column missing").
Proof.
  intros Hlay. destruct (startup_after_load fs st) as (st1 & Hload & Hrun & Hl & Hds).
  rewrite Hrun in *. split.
  - rewrite readonly_build_layout. by eexists.
  - destruct (build_layout_ok_columns _ _ _ _ Hl Hds Hlay) as [Hp _].
    intros st' site range Hst' Hfig.
    pose proof (scatter_chart_title _ _ _ _ _ Hst' Hp Hfig) as Ht.
    by apply (scatter_title_not_missing site).
Qed.

Lemma scatter_guard_dead_after_startup_witness :
  loaded (startup (λ _, Some ex_ds) init_state).2 (dataset_of (λ _, Some ex_ds))
  ∧ ∀ st' site range,
      loaded st' (dataset_of (λ _, Some ex_ds)) →
      (get_scatter_chart site range st').1
      ≠ Ok (px.scatter_empty "Payload Mass (kg) column missing").
Proof.
  eapply (scatter_guard_dead_after_startup (λ _, Some ex_ds) init_state). reflexivity.
Defined.

(** ** The pie callback beyond well-formed datasets *)

(** X7: unlike the scatter callback, the pie callback has no guard for a
    missing column.  Without the class column it raises KeyError for
    "ALL", and for a site once the site rows are selected; without the
    launch-site column it raises KeyError for a site, and for "ALL" the
    chart builder rejects the frame with ValueError. *)
Theorem pie_has_no_column_guard (st : state) (ds : pd.DataFrame) (site : string) :
  loaded st ds →
  (pd.has_column ds "class" = false →
   get_pie_chart "ALL" st = (Raise (KeyError "class"), st))
  ∧ (pd.has_column ds "class" = true → pd.has_column ds "Launch Site" = false →
     (get_pie_chart "ALL" st).1 = Raise ValueError)
  ∧ (site ≠ "ALL" → pd.has_column ds "Launch Site" = false →
     get_pie_chart site st = (Raise (KeyError "Launch Site"), st))
  ∧ (site ≠ "ALL" → pd.has_column ds "Launch Site" = true →
     pd.has_column ds "class" = false →
     (get_pie_chart site st).1 = Raise (KeyError "class")).
Proof.
  intros (l & Hl & Hds). split_and!.
  - intros Hc. unfold get_pie_chart. change (String.eqb "ALL" "ALL") with true. cbv iota.
    by repeat run_step.
  - intros Hc Hs. unfold get_pie_chart. change (String.eqb "ALL" "ALL") with true. cbv iota.
    repeat run_step. unfold px.pie, px.column_arg. by repeat run_step.
  - intros Hne%String.eqb_neq Hs. unfold get_pie_chart. rewrite Hne. by repeat run_step.
  - intros Hne%String.eqb_neq Hs Hc. unfold get_pie_chart. rewrite Hne. by repeat run_step.
Qed.

Lemma pie_has_no_column_guard_witness :
  (pd.has_column no_class_ds "class" = false →
   get_pie_chart "ALL" (state_of no_class_ds) = (Raise (KeyError "class"), state_of no_class_ds))
  ∧ (pd.has_column no_class_ds "class" = true →
     pd.has_column no_class_ds "Launch Site" = false →
     (get_pie_chart "ALL" (state_of no_class_ds)).1 = Raise ValueError)
  ∧ ("A" ≠ "ALL" → pd.has_column no_class_ds "Launch Site" = false →
     get_pie_chart "A" (state_of no_class_ds)
     = (Raise (KeyError "Launch Site"), state_of no_class_ds))
  ∧ ("A" ≠ "ALL" → pd.has_column no_class_ds "Launch Site" = true →
     pd.has_column no_class_ds "class" = false →
     (get_pie_chart "A" (state_of no_class_ds)).1 = Raise (KeyError "class")).
Proof.
  apply (pie_has_no_column_guard (state_of no_class_ds) no_class_ds "A").
  exists 0. split; reflexivity.
Defined.

Lemma rmap_raise {A B} (f : A → result B) (l : list A) (e : exn) :
  (∀ x, x ∈ l → (∃ b, f x = Ok b) ∨ f x = Raise e) →
  (∃ x, x ∈ l ∧ f x = Raise e) →
  rmap f l = Raise e.
Proof.
  induction l as [|x l IH]; intros Hall (y & Hy & Hfy); [by apply elem_of_nil in Hy|].
  csimpl. destruct (Hall x ltac:(left)) as [[b Hb]| ->]; [|done].
  rewrite Hb. simpl. rewrite IH; [done|intros z Hz; apply Hall; by right|].
  apply elem_of_cons in Hy as [->|Hy]; [congruence|]. by exists y.
Qed.

Lemma ge_text_payload ds (lo : Qc) r t :
  r ∈ pd.rows ds → payload_of ds r = Str t →
  pd.ge {| pd.name := "Payload Mass (kg)";
           pd.values := pd.cell ds "Payload Mass (kg)" <$> pd.rows ds |} (Num lo)
  = Raise TypeError.
Proof.
  intros Hr Hp. unfold pd.ge. cbn [pd.values]. apply rmap_raise.
  - intros x _. destruct x; simpl; first [by left; eexists | by right].
  - exists (payload_of ds r). split; [by apply list_elem_of_fmap_2|]. by rewrite Hp.
Qed.

Lemma scatter_of_columns (ds : pd.DataFrame) (rs : list (list scalar)) title :
  forallb (pd.has_column ds)
          ["Payload Mass (kg)"; "Launch Site"; "class"; "Booster Version Category"] = true →
  px.scatter {| pd.columns := pd.columns ds; pd.rows := rs |}
             "Payload Mass (kg)" "class" "Booster Version Category" title
  = Ok (px.Scatter (point_of ds <$> charted ds rs) title).
Proof.
  intros Hcols. simpl in Hcols. repeat (apply andb_prop in Hcols as [? Hcols]).
  unfold px.scatter, px.column_arg.
  rewrite !(has_column_same ds {| pd.columns := pd.columns ds |}) by done.
  repeat match goal with H : pd.has_column _ _ = true |- _ => rewrite H; clear H end.
  reflexivity.
Qed.

(** X8: the payload guard of the scatter callback tests that the column
    is there, not that it holds numbers.  Over a dataset with the four
    columns and a payload cell that is text, every call whose two ends
    are numbers raises TypeError at the first comparison, before any
    frame is created; a call with an end that is not a number runs no
    comparison and, for "ALL", charts every launch that has a booster
    category, the one with the text payload included. *)
Theorem scatter_text_payload_raises (st : state) (ds : pd.DataFrame) (r : list scalar)
    (t : string) :
  loaded st ds →
  forallb (pd.has_column ds)
          ["Payload Mass (kg)"; "Launch Site"; "class"; "Booster Version Category"] = true →
  r ∈ pd.rows ds →
  payload_of ds r = Str t →
  (∀ site (lo hi : Qc),
     get_scatter_chart site (PyList [Atom (Num lo); Atom (Num hi)]) st = (Raise TypeError, st))
  ∧ (∀ low high,
       isinstance_number low = false ∨ isinstance_number high = false →
       ∃ fig,
         (get_scatter_chart "ALL" (PyList [low; high]) st).1 = Ok fig
         ∧ px.title fig = "Payload vs. Launch Outcome for All Sites"
         ∧ (∀ r', r' ∈ pd.rows ds → has_booster ds r' = true → point_of ds r' ∈ px.points fig)
         ∧ (has_booster ds r = true →
            ∃ p, p ∈ px.points fig ∧ px.x p = Str t)).
Proof.
  intros (l & Hl & Hds) Hcols Hr Htext.
  assert (pd.has_column ds "Payload Mass (kg)" = true) as Hp
    by (simpl in Hcols; by apply andb_prop in Hcols as [? _]).
  split.
  - intros site lo hi. unfold get_scatter_chart. cbn [unpack2].
    assert (isinstance_number (Atom (Num lo)) && isinstance_number (Atom (Num hi)) = true)
      as Hnum by done.
    repeat run_step. by rewrite (ge_text_payload ds lo r t).
  - intros low high Hbad. unfold get_scatter_chart. cbn [unpack2].
    assert (isinstance_number low && isinstance_number high = false) as Hnum
      by (destruct Hbad as [-> | ->]; by rewrite ?andb_false_r).
    change (String.eqb "ALL" "ALL") with true. cbv iota.
    repeat run_step. rewrite scatter_of_columns by done.
    eexists. split; [done|]. simpl. split; [done|]. split.
    + intros r' Hr' Hb. by apply list_elem_of_fmap_2, elem_of_charted.
    + intros Hb. exists (point_of ds r). split; [|done].
      by apply list_elem_of_fmap_2, elem_of_charted.
Qed.

Lemma scatter_text_payload_raises_witness :
  (∀ site (lo hi : Qc),
     get_scatter_chart site (PyList [Atom (Num lo); Atom (Num hi)]) (state_of text_payload_ds)
     = (Raise TypeError, state_of text_payload_ds))
  ∧ (∀ low high,
       isinstance_number low = false ∨ isinstance_number high = false →
       ∃ fig,
         (get_scatter_chart "ALL" (PyList [low; high]) (state_of text_payload_ds)).1 = Ok fig
         ∧ px.title fig = "Payload vs. Launch Outcome for All Sites"
         ∧ (∀ r', r' ∈ pd.rows text_payload_ds → has_booster text_payload_ds r' = true →
              point_of text_payload_ds r' ∈ px.points fig)
         ∧ (has_booster text_payload_ds [Str "heavy"; Str "B"; Num (qz 0); Str "B2"] = true →
            ∃ p, p ∈ px.points fig ∧ px.x p = Str "heavy")).
Proof.
  apply (scatter_text_payload_raises (state_of text_payload_ds) text_payload_ds
           [Str "heavy"; Str "B"; Num (qz 0); Str "B2"] "heavy").
  - exists 0. split; reflexivity.
  - reflexivity.
  - right. left.
  - reflexivity.
Defined.

(** ** Intervals *)

Lemma num_le_trans (a b c : scalar) : num_le a b = true → num_le b c = true → num_le a c = true.
Proof.
  destruct a, b, c; simpl; try done. rewrite !qc_leb_le. apply Qcle_trans.
Qed.



Lemma filter_none {A} (P : A → Prop) `{!∀ x, Decision (P x)} (l : list A) :
  (∀ x, x ∈ l → ¬ P x) → filter P l = [].
Proof.
  induction l as [|x l IH]; intros Hno; [done|].
  rewrite filter_cons_False by (apply Hno; left). apply IH. intros y Hy. apply Hno. by right.
Qed.

(** X9: an interval whose ends are numbers but not in order (low above
    high, or an end that is NaN) is not an error: over a table and
    bounds in the range of exact comparison the scatter callback
    returns a chart without points. *)
Theorem scatter_unordered_interval_is_empty (st : state) (ds : pd.DataFrame) (site : string)
    (lo hi : scalar) :
  loaded st ds →
  well_formed ds = true →
  exact_payloads ds = true →
  exact_number lo = true → exact_number hi = true →
  is_numeric lo = true → is_numeric hi = true →
  num_le lo hi = false →
  ∃ fig,
    (get_scatter_chart site (PyList [Atom lo; Atom hi]) st).1 = Ok fig
    ∧ px.points fig = [].
Proof.
  intros (l & Hl & Hds) Hwf _ _ _ Hlo Hhi Hord. eexists. split; [by eapply run_scatter|].
  rewrite interval_rows_numbers by done. simpl.
  rewrite filter_none; [by unfold site_rows; destruct (String.eqb site "ALL")|].
  intros r _. unfold within. intros [H1 H2]%andb_prop.
  by rewrite (num_le_trans _ _ _ H1 H2) in Hord.
Qed.

Lemma scatter_unordered_interval_is_empty_witness :
  ∃ fig,
    (get_scatter_chart "ALL" (PyList [Atom (Num (qz 9000)); Atom (Num (qz 500))]) ex_st).1
    = Ok fig
    ∧ px.points fig = [].
Proof.
  apply (scatter_unordered_interval_is_empty ex_st ex_ds "ALL" (Num (qz 9000)) (Num (qz 500))).
  - exists 0. split; reflexivity.
  - reflexivity.
  - reflexivity.
  - reflexivity.
  - reflexivity.
  - reflexivity.
  - reflexivity.
  - reflexivity.
Defined.



(** ** The callbacks as functions of the dataset *)

Lemma pie_result_of_dataset st st' ds site :
  loaded st ds → loaded st' ds →
  (get_pie_chart site st).1 = (get_pie_chart site st').1.
Proof.
  intros (l & Hl & Hds) (l' & Hl' & Hds'). unfold get_pie_chart.
  destruct (pd.has_column ds "class") eqn:Hc, (pd.has_column ds "Launch Site") eqn:Hs,
    (String.eqb site "ALL"); repeat run_step; try reflexivity.
  unfold pd.set_columns, pd.reset_index. cbn [length pd.columns pd.rows Nat.eqb].
  by repeat run_step.
Qed.

Ltac run_cases :=
  repeat first
    [ run_step
    | match goal with
      | |- context [match ?x with Ok _ => _ | Raise _ => _ end] =>
          lazymatch x with
          | context [objs] => fail
          | context [spacex_df] => fail
          | _ => destruct x eqn:?
          end
      | |- context [pd.has_column ?df ?c] => destruct (pd.has_column df c) eqn:?
      end ].

Lemma scatter_result_of_dataset st st' ds site range :
  loaded st ds → loaded st' ds →
  (get_scatter_chart site range st).1 = (get_scatter_chart site range st').1.
Proof.
  intros (l & Hl & Hds) (l' & Hl' & Hds'). unfold get_scatter_chart.
  destruct (unpack2 range) as [[low high]|e]; [|done].
  destruct (isinstance_number low && isinstance_number high) eqn:Hnum.
  - destruct low as [lo|]; [|done]. destruct high as [hi|]; [|by rewrite andb_false_r in Hnum].
    destruct (String.eqb site "ALL"); run_cases; reflexivity.
  - destruct (String.eqb site "ALL"); run_cases; reflexivity.
Qed.

(** X11: what a callback returns, chart or exception, depends on its
    arguments and on the dataset only, not on what else the state holds.
    In particular recomputation is idempotent: after any pie call and any
    scatter call have run, each callback returns what it returned
    before. *)
Theorem callbacks_depend_on_dataset_only (st : state) (ds : pd.DataFrame)
    (site site0 : string) (range range0 : pyval) :
  loaded st ds →
  (∀ st', loaded st' ds →
          (get_pie_chart site st').1 = (get_pie_chart site st).1
          ∧ (get_scatter_chart site range st').1 = (get_scatter_chart site range st).1)
  ∧ (get_pie_chart site (get_scatter_chart site0 range0 (get_pie_chart site0 st).2).2).1
    = (get_pie_chart site st).1
  ∧ (get_scatter_chart site range
       (get_scatter_chart site0 range0 (get_pie_chart site0 st).2).2).1
    = (get_scatter_chart site range st).1.
Proof.
  intros Hds.
  assert (∀ st', loaded st' ds →
                 (get_pie_chart site st').1 = (get_pie_chart site st).1
                 ∧ (get_scatter_chart site range st').1 = (get_scatter_chart site range st).1)
    as Hsame.
  { intros st' Hds'. split; [by eapply pie_result_of_dataset|by eapply scatter_result_of_dataset]. }
  split; [done|].
  assert (loaded (get_scatter_chart site0 range0 (get_pie_chart site0 st).2).2 ds) as Hafter.
  { eapply only_allocates_loaded;
      [apply (preserves_get_scatter_chart _ site0 range0 _ (only_allocates_refl _))|].
    eapply only_allocates_loaded;
      [apply (preserves_get_pie_chart _ site0 _ (only_allocates_refl _))|done]. }
  by destruct (Hsame _ Hafter).
Qed.

Lemma callbacks_depend_on_dataset_only_witness :
  (∀ st', loaded st' ex_ds →
          (get_pie_chart "A" st').1 = (get_pie_chart "A" ex_st).1
          ∧ (get_scatter_chart "A" (PyList [Atom (Num (qz 0)); Atom (Num (qz 1000))]) st').1
            = (get_scatter_chart "A" (PyList [Atom (Num (qz 0)); Atom (Num (qz 1000))]) ex_st).1)
  ∧ (get_pie_chart "A" (get_scatter_chart "B" (Atom PNone) (get_pie_chart "B" ex_st).2).2).1
    = (get_pie_chart "A" ex_st).1
  ∧ (get_scatter_chart "A" (PyList [Atom (Num (qz 0)); Atom (Num (qz 1000))])
       (get_scatter_chart "B" (Atom PNone) (get_pie_chart "B" ex_st).2).2).1
    = (get_scatter_chart "A" (PyList [Atom (Num (qz 0)); Atom (Num (qz 1000))]) ex_st).1.
Proof.
  apply (callbacks_depend_on_dataset_only ex_st ex_ds "A" "B").
  exists 0. split; reflexivity.
Defined.

(** ** The two views of the pie callback *)

Lemma pie_all_slice ds (s : scalar) (v : Qc) title :
  (s, v) ∈ px.slices (px.Pie (site_of ds <$> filter (λ r, is_success ds r = true) (pd.rows ds))
                             None title)
  ↔ ∃ n, v = qn n ∧ 0 < n
         ∧ n = count_rows (λ r, is_success ds r && bool_decide (site_of ds r = s)) ds.
Proof.
  rewrite slices_of_labels, elem_of_counts. unfold count_rows.
  assert (occurrences s (site_of ds <$> filter (λ r, is_success ds r = true) (pd.rows ds))
          = length (filter (λ r, (is_success ds r && bool_decide (site_of ds r = s)) = true)
                           (pd.rows ds))) as Hocc.
  { unfold occurrences. rewrite length_filter_fmap, list_filter_filter.
    apply length_filter_iff. intros r _.
    rewrite andb_true_iff, bool_decide_eq_true. tauto. }
  split.
  - intros (n & -> & [-> Hpos]%tallies_spec). eexists. by rewrite <- Hocc.
  - intros (n & -> & Hpos & ->). eexists. split; [done|].
    apply tallies_spec. by rewrite Hocc.
Qed.

Lemma pie_site_success_slice ds S (v : Qc) title :
  (Str "Success", v)
    ∈ px.slices (px.Pie (site_outcomes ds S).*1
                        (Some ((λ e, Num (qn e.2)) <$> site_outcomes ds S)) title)
  ↔ ∃ n, v = qn n ∧ 0 < n
         ∧ n = count_rows (λ r, at_site ds S r && is_success ds r) ds.
Proof.
  rewrite slices_of_counts
    by (rewrite site_outcomes_sorted, sort_desc_perm; apply tallies_NoDup).
  rewrite elem_of_counts. setoid_rewrite site_outcomes_sorted.
  setoid_rewrite sort_desc_perm. setoid_rewrite tallies_spec.
  rewrite site_labels_success. split; intros (n & -> & ? & ?); by exists n.
Qed.

(** X12: the two views of the pie callback agree.  For a site S other
    than "ALL", the slice labelled S in the all-sites pie and the
    "Success" slice of the pie of S have the same value, and one is
    absent exactly when the other is.  The class cells are those of the
    model: numbers, text or missing values, not Python booleans. *)
Theorem pie_views_agree_on_successes (st : state) (ds : pd.DataFrame) (S : string) :
  loaded st ds →
  pd.has_column ds "class" = true →
  pd.has_column ds "Launch Site" = true →
  S ≠ "ALL" →
  ∃ fig_all fig_S,
    (get_pie_chart "ALL" st).1 = Ok fig_all
    ∧ (get_pie_chart S st).1 = Ok fig_S
    ∧ ∀ v, (Str S, v) ∈ px.slices fig_all ↔ (Str "Success", v) ∈ px.slices fig_S.
Proof.
  intros (l & Hl & Hds) Hc Hs HS%String.eqb_neq. do 2 eexists.
  split; [by eapply run_pie_all|]. split; [by eapply run_pie_site|].
  intros v. rewrite pie_all_slice, pie_site_success_slice.
  assert (count_rows (λ r, is_success ds r && bool_decide (site_of ds r = Str S)) ds
          = count_rows (λ r, at_site ds S r && is_success ds r) ds) as ->; [|done].
  apply length_filter_iff. intros r _. unfold at_site.
  rewrite !andb_true_iff, bool_decide_eq_true, py_eq_Str. tauto.
Qed.

Lemma pie_views_agree_on_successes_witness :
  ∃ fig_all fig_S,
    (get_pie_chart "ALL" ex_st).1 = Ok fig_all
    ∧ (get_pie_chart "B" ex_st).1 = Ok fig_S
    ∧ ∀ v, (Str "B", v) ∈ px.slices fig_all ↔ (Str "Success", v) ∈ px.slices fig_S.
Proof.
  apply (pie_views_agree_on_successes ex_st ex_ds "B").
  - exists 0. split; reflexivity.
  - reflexivity.
  - reflexivity.
  - discriminate.
Defined.

(** X13: over a dataset without a single successful launch, such as the
    loader's placeholder, the all-sites pie is not an error but a pie
    without slices. *)
Theorem pie_all_without_success_is_empty (st : state) (ds : pd.DataFrame) :
  loaded st ds →
  pd.has_column ds "class" = true →
  pd.has_column ds "Launch Site" = true →
  count_rows (is_success ds) ds = 0 →
  ∃ fig, (get_pie_chart "ALL" st).1 = Ok fig ∧ px.slices fig = [].
Proof.
  intros (l & Hl & Hds) Hc Hs Hnone. eexists. split; [by eapply run_pie_all|].
  unfold count_rows in Hnone. apply nil_length_inv in Hnone. by rewrite Hnone.
Qed.

Lemma pie_all_without_success_is_empty_witness :
  ∃ fig, (get_pie_chart "ALL" (state_of placeholder)).1 = Ok fig ∧ px.slices fig = [].
Proof.
  apply (pie_all_without_success_is_empty (state_of placeholder) placeholder).
  - exists 0. split; reflexivity.
  - reflexivity.
  - reflexivity.
  - reflexivity.
Defined.

(** ** The controls of the layout *)

Lemma unique_from_spec (seen xs : list scalar) (x : scalar) :
  x ∈ pd.unique_from seen xs ↔ x ∈ xs ∧ x ∉ seen.
Proof.
  revert seen. induction xs as [|y xs IH]; intros seen; simpl.
  - rewrite elem_of_nil. tauto.
  - case_bool_decide as Hy.
    + rewrite IH, elem_of_cons. split; [tauto|]. intros [[->|?] ?]; [done|tauto].
    + rewrite elem_of_cons, IH, !elem_of_cons. split.
      * intros [->|[? ?]]; [tauto|]. split; [tauto|]. tauto.
      * intros [[->|?] ?]; [tauto|]. destruct (decide (x = y)); tauto.
Qed.

Lemma unique_from_NoDup (seen xs : list scalar) : NoDup (pd.unique_from seen xs).
Proof.
  revert seen. induction xs as [|y xs IH]; intros seen; simpl; [constructor|].
  case_bool_decide; [apply IH|]. constructor; [|apply IH].
  rewrite unique_from_spec, elem_of_cons. tauto.
Qed.

Lemma startup_layout (fs : filesystem) (st : state) :
  well_formed (dataset_of fs) = true →
  ∃ lay bmin bmax,
    (startup fs st).1 = Ok lay
    ∧ dcc.options (site_dropdown lay)
      = (Str "All Sites", Str "ALL")
        :: ((λ site, (site, site))
              <$> first_seen (site_of (dataset_of fs) <$> pd.rows (dataset_of fs)))
    ∧ dcc.min (payload_slider lay) = 0%Z
    ∧ dcc.max (payload_slider lay) = 10000%Z
    ∧ dcc.rs_value (payload_slider lay)
      = [if notna bmin then bmin else Num (qz 0); if notna bmax then bmax else Num (qz 10000)]
    ∧ extreme_of Qcle NaN (payload_of (dataset_of fs) <$> pd.rows (dataset_of fs)) bmin
    ∧ extreme_of (λ m q, (q <= m)%Qc) NaN
                 (payload_of (dataset_of fs) <$> pd.rows (dataset_of fs)) bmax.
Proof.
  intros Hwf. destruct (startup_after_load fs st) as (st' & Hload & Hrun & Hl & Hds).
  destruct (min_payload_spec _ Hwf) as (bmin & Hmin & Hbmin).
  destruct (max_payload_spec _ Hwf) as (bmax & Hmax & Hbmax).
  destruct (run_build_layout st' _ _ bmin bmax Hl Hds Hwf Hmin Hmax)
    as (lay & Hlay & Hopts & _ & H0 & H1 & _ & _ & Hrs).
  exists lay, bmin, bmax. rewrite Hrun. done.
Qed.

(** X14: the site selector offers every launch site of the dataset
    exactly once: after "All Sites", its options are pairwise distinct,
    each is labelled by its own value, and a value is offered exactly
    when some row of the dataset has it as its site. *)
Theorem layout_offers_each_site_once (fs : filesystem) (st : state) :
  well_formed (dataset_of fs) = true →
  ∃ lay sites,
    (startup fs st).1 = Ok lay
    ∧ dcc.options (site_dropdown lay)
      = (Str "All Sites", Str "ALL") :: ((λ site, (site, site)) <$> sites)
    ∧ NoDup sites
    ∧ ∀ s, s ∈ sites ↔ ∃ r, r ∈ pd.rows (dataset_of fs) ∧ site_of (dataset_of fs) r = s.
Proof.
  intros Hwf. destruct (startup_layout fs st Hwf) as (lay & bmin & bmax & Hlay & Hopts & _).
  exists lay, (first_seen (site_of (dataset_of fs) <$> pd.rows (dataset_of fs))).
  split_and!; [done..| |]; rewrite <- unique_first_seen; [apply unique_from_NoDup|].
  intros s. rewrite unique_from_spec, list_elem_of_fmap, elem_of_nil. split.
  - intros [(r & -> & Hr) _]. by exists r.
  - intros (r & Hr & <-). split; [by exists r|tauto].
Qed.

Lemma layout_offers_each_site_once_witness :
  ∃ lay sites,
    (startup (λ _, Some ex_ds) init_state).1 = Ok lay
    ∧ dcc.options (site_dropdown lay)
      = (Str "All Sites", Str "ALL") :: ((λ site, (site, site)) <$> sites)
    ∧ NoDup sites
    ∧ ∀ s, s ∈ sites ↔ ∃ r, r ∈ pd.rows (dataset_of (λ _, Some ex_ds))
                            ∧ site_of (dataset_of (λ _, Some ex_ds)) r = s.
Proof.
  apply (layout_offers_each_site_once (λ _, Some ex_ds) init_state). reflexivity.
Defined.

(** X15: the initial interval of the payload slider is taken from the
    dataset without being clamped to the slider's range: it spans every
    payload of the dataset, so a payload above the slider's maximum puts
    the initial upper end above that maximum, and a payload below the
    minimum puts the lower end below it. *)
Theorem slider_start_is_not_clamped (fs : filesystem) (st : state) (q : Qc) :
  well_formed (dataset_of fs) = true →
  Num q ∈ payload_of (dataset_of fs) <$> pd.rows (dataset_of fs) →
  ∃ lay lo hi,
    (startup fs st).1 = Ok lay
    ∧ dcc.rs_value (payload_slider lay) = [Num lo; Num hi]
    ∧ (lo <= q)%Qc ∧ (q <= hi)%Qc
    ∧ ((qz (dcc.max (payload_slider lay)) < q)%Qc → (qz (dcc.max (payload_slider lay)) < hi)%Qc)
    ∧ ((q < qz (dcc.min (payload_slider lay)))%Qc → (lo < qz (dcc.min (payload_slider lay)))%Qc).
Proof.
  intros Hwf Hq.
  destruct (startup_layout fs st Hwf)
    as (lay & bmin & bmax & Hlay & _ & Hmin & Hmax & Hrs & Hbmin & Hbmax).
  destruct bmin as [|lo| |]; simpl in Hbmin; try done;
    [|destruct Hbmin as [_ Hnone]; by destruct (Hnone q)].
  destruct bmax as [|hi| |]; simpl in Hbmax; try done;
    [|destruct Hbmax as [_ Hnone]; by destruct (Hnone q)].
  destruct Hbmin as [_ Hlo], Hbmax as [_ Hhi].
  assert ((lo <= q)%Qc) as Hloq by (apply Hlo; by right).
  assert ((q <= hi)%Qc) as Hqhi by (apply Hhi; by right).
  exists lay, lo, hi. split_and!; try done.
  - intros Hlt. by eapply Qclt_le_trans.
  - intros Hlt. by eapply Qcle_lt_trans.
Qed.

Lemma slider_start_is_not_clamped_witness :
  ∃ lay lo hi,
    (startup (λ _, Some heavy_ds) init_state).1 = Ok lay
    ∧ dcc.rs_value (payload_slider lay) = [Num lo; Num hi]
    ∧ (lo <= qz 15600)%Qc ∧ (qz 15600 <= hi)%Qc
    ∧ ((qz (dcc.max (payload_slider lay)) < qz 15600)%Qc
       → (qz (dcc.max (payload_slider lay)) < hi)%Qc)
    ∧ ((qz 15600 < qz (dcc.min (payload_slider lay)))%Qc
       → (lo < qz (dcc.min (payload_slider lay)))%Qc).
Proof.
  apply (slider_start_is_not_clamped (λ _, Some heavy_ds) init_state (qz 15600)).
  - reflexivity.
  - left.
Defined.

(** X16: the value "ALL" is reserved for the all-sites view.  The option
    values of the site selector are pairwise distinct exactly when no
    row of the dataset has a launch site named "ALL"; such a site would
    be offered under the value the callbacks read as all sites. *)
Theorem selector_values_distinct_unless_site_ALL (fs : filesystem) (st : state) :
  well_formed (dataset_of fs) = true →
  ∃ lay,
    (startup fs st).1 = Ok lay
    ∧ (NoDup (dcc.options (site_dropdown lay)).*2
       ↔ ¬ ∃ r, r ∈ pd.rows (dataset_of fs) ∧ site_of (dataset_of fs) r = Str "ALL").
Proof.
  intros Hwf. destruct (startup_layout fs st Hwf) as (lay & bmin & bmax & Hlay & Hopts & _).
  exists lay. split; [done|]. rewrite Hopts, <- unique_first_seen. csimpl.
  rewrite <- list_fmap_compose, list_fmap_id, NoDup_cons, unique_from_spec, list_elem_of_fmap.
  split.
  - intros [Hno _] (r & Hr & Hs). apply Hno. split; [by exists r|]. by intros ?%elem_of_nil.
  - intros Hno. split; [|apply unique_from_NoDup].
    intros [(r & Hs & Hr) _]. apply Hno. by exists r.
Qed.

Lemma selector_values_distinct_unless_site_ALL_witness :
  ∃ lay,
    (startup (λ _, Some ex_ds) init_state).1 = Ok lay
    ∧ (NoDup (dcc.options (site_dropdown lay)).*2
       ↔ ¬ ∃ r, r ∈ pd.rows (dataset_of (λ _, Some ex_ds))
                ∧ site_of (dataset_of (λ _, Some ex_ds)) r = Str "ALL").
Proof.
  apply (selector_values_distinct_unless_site_ALL (λ _, Some ex_ds) init_state). reflexivity.
Defined.

Lemma pie_site_total ds S title :
  px.total (px.slices (px.Pie (site_outcomes ds S).*1
                              (Some ((λ e, Num (qn e.2)) <$> site_outcomes ds S)) title))
  = qn (length (site_labels ds S)).
Proof.
  rewrite slices_of_counts
    by (rewrite site_outcomes_sorted, sort_desc_perm; apply tallies_NoDup).
  rewrite total_counts. f_equal.
  rewrite site_outcomes_sorted, sort_desc_perm. apply tallies_sum.
Qed.

(** X17: the pie of a site counts only outcome classes 0 and 1.  A row
    at the site whose class is anything else (another number, text, a
    missing value) is dropped without an error, so the slice values then
    add up to less than the number of rows at the site. *)
Theorem pie_site_drops_other_classes (st : state) (ds : pd.DataFrame) (S : string)
    (r : list scalar) :
  loaded st ds →
  pd.has_column ds "class" = true →
  pd.has_column ds "Launch Site" = true →
  S ≠ "ALL" →
  r ∈ pd.rows ds →
  at_site ds S r = true →
  is_success ds r = false → is_failure ds r = false →
  ∃ fig n,
    (get_pie_chart S st).1 = Ok fig
    ∧ px.total (px.slices fig) = qn n
    ∧ n < count_rows (at_site ds S) ds.
Proof.
  intros (l & Hl & Hds) Hc Hs HS%String.eqb_neq Hr Hat Hsucc Hfail. do 2 eexists.
  split; [by eapply run_pie_site|]. split; [apply pie_site_total|].
  unfold site_labels, count_rows. rewrite <- list_fmap_compose, length_filter_fmap.
  apply (length_filter_lt _ _ r); [by apply list_elem_of_filter|].
  simpl. rewrite dict_get_outcome. unfold is_success, is_failure in *.
  by rewrite Hsucc, Hfail.
Qed.

Lemma pie_site_drops_other_classes_witness :
  ∃ fig n,
    (get_pie_chart "A" (state_of odd_class_ds)).1 = Ok fig
    ∧ px.total (px.slices fig) = qn n
    ∧ n < count_rows (at_site odd_class_ds "A") odd_class_ds.
Proof.
  apply (pie_site_drops_other_classes (state_of odd_class_ds) odd_class_ds "A"
           [Num (qz 700); Str "A"; Num (qz 2); Str "B2"]).
  - exists 0. split; reflexivity.
  - reflexivity.
  - reflexivity.
  - discriminate.
  - right. left.
  - reflexivity.
  - reflexivity.
  - reflexivity.
Defined.
